(** * ginx: Gin middleware helpers (packages [bind], [errors], [zlog])

    A shallow embedding of the three packages of the repository, and the
    statements of their specification proved or refuted on it.

    The embedding:
    - [Go]     the runtime notions the packages rely on: error values
               with [errors.Is] and [errors.As], [io.Reader] bodies,
               [reflect.Kind], base64, JSON values ([gin.H]);
    - [Gin]    the part of [gin.Context] that packages [bind] and [errors]
               read and write;
    - [Bind]   src/bind/bind.go;
    - [Errors] src/errors/errors.go;
    - [Zlog]   src/zlog/zlog.go, with the part of zerolog it calls and
               gin's handler chain;
    - [Sample] values, decoders and requests for the examples.

    The properties: [BindSpec], [ErrorsSpec], [ZlogSpec].

    gin's decoder ([ctx.ShouldBind]), [reflect.TypeOf], [reflect.New] and
    [wtf.IsThisError] are parameters of the development. *)

From Stdlib Require Import ZArith Lia.
From stdpp Require Import base strings list gmap.

Set Default Proof Using "Type".
#[local] Set Warnings "-register-all".

(* ===================================================================== *)
(** * Go runtime notions *)
(* ===================================================================== *)

Module Go.

(** [[]byte] *)
Definition bytes := list Byte.byte.

Definition bytes_of (s : string) : bytes := String.list_byte_of_string s.

(** One entry of [validator.ValidationErrors]: what [fe.Field()] and
    [fe.Tag()] return. *)
Record FieldError := { Field : string; Tag : string }.

(** Non-nil [error] values.  [errors.New] and [fmt.Errorf] return
    pointers, compared by identity: the allocation is the [addr].
    [validator.ValidationErrors] is a slice type and is not comparable. *)
Inductive error :=
| ErrorString (addr : positive) (text : string)
| WrapError (addr : positive) (text : string) (inner : error)
| ValidationErrors (fes : list FieldError).

(** [err == target] for comparable dynamic types. *)
Definition same_error (err target : error) : bool :=
  match err, target with
  | ErrorString a _, ErrorString b _ => bool_decide (a = b)
  | WrapError a _ _, WrapError b _ _ => bool_decide (a = b)
  | _, _ => false
  end.

(** [errors.Is(err, target)]: some error of the [Unwrap] chain of [err]
    is [target]. *)
Fixpoint errors_Is (err target : error) : bool :=
  same_error err target ||
  match err with
  | WrapError _ _ inner => errors_Is inner target
  | _ => false
  end.

(** [errors.As(err, &vErr)] for [vErr] of type
    [validator.ValidationErrors]: the first error of the chain of that
    type. *)
Fixpoint errors_As_ValidationErrors (err : error) : option (list FieldError) :=
  match err with
  | ValidationErrors fes => Some fes
  | WrapError _ _ inner => errors_As_ValidationErrors inner
  | ErrorString _ _ => None
  end.

(** An [io.ReadCloser]: the bytes it still yields, and whether reading
    ends in an error instead of [io.EOF]. *)
Record Reader := { pending : bytes; fault : option error }.

(** [io.NopCloser(bytes.NewReader(b))] *)
Definition NewReader (b : bytes) : Reader :=
  {| pending := b; fault := None |}.

(** [io.ReadAll(r)]: the reader once drained, the bytes read, the
    error. *)
Definition ReadAll (r : Reader) : Reader * bytes * option error :=
  ({| pending := []; fault := fault r |}, pending r, fault r).

(** A read of [n] bytes through a decoder. *)
Definition advance (n : nat) (r : Reader) : Reader :=
  {| pending := drop n (pending r); fault := fault r |}.

(** [encoding/base64]: the URL-safe alphabet, and
    [base64.RawURLEncoding.EncodeToString] (three bytes give four
    characters; no padding). *)
Definition encodeURL : string :=
  "ABCDEFGHIJKLMNOPQRSTUVWXYZabcdefghijklmnopqrstuvwxyz0123456789-_".

Definition sextet (n : N) : Ascii.ascii :=
  default Ascii.zero (String.get (N.to_nat (N.land n 63)) encodeURL).

Fixpoint RawURLEncoding (src : bytes) : string :=
  match src with
  | a :: b :: c :: rest =>
      let val := N.lor (N.shiftl (Byte.to_N a) 16)
                   (N.lor (N.shiftl (Byte.to_N b) 8) (Byte.to_N c)) in
      String.String (sextet (N.shiftr val 18))
        (String.String (sextet (N.shiftr val 12))
          (String.String (sextet (N.shiftr val 6))
            (String.String (sextet val) (RawURLEncoding rest))))
  | [a; b] =>
      let val := N.lor (N.shiftl (Byte.to_N a) 16) (N.shiftl (Byte.to_N b) 8) in
      String.String (sextet (N.shiftr val 18))
        (String.String (sextet (N.shiftr val 12))
          (String.String (sextet (N.shiftr val 6)) String.EmptyString))
  | [a] =>
      let val := N.shiftl (Byte.to_N a) 16 in
      String.String (sextet (N.shiftr val 18))
        (String.String (sextet (N.shiftr val 12)) String.EmptyString)
  | [] => String.EmptyString
  end.

(** [reflect.Kind] *)
Inductive Kind :=
| Invalid | Bool | Int | Int8 | Int16 | Int32 | Int64
| Uint | Uint8 | Uint16 | Uint32 | Uint64 | Uintptr
| Float32 | Float64 | Complex64 | Complex128
| Array | Chan | Func | Interface | Map | Pointer | Slice
| String | Struct | UnsafePointer.

#[export] Instance Kind_eq_dec : EqDecision Kind.
Proof. solve_decision. Defined.

(** [Kind.String()] *)
Definition Kind_String (k : Kind) : string :=
  match k with
  | Invalid => "invalid" | Bool => "bool" | Int => "int" | Int8 => "int8"
  | Int16 => "int16" | Int32 => "int32" | Int64 => "int64"
  | Uint => "uint" | Uint8 => "uint8" | Uint16 => "uint16"
  | Uint32 => "uint32" | Uint64 => "uint64" | Uintptr => "uintptr"
  | Float32 => "float32" | Float64 => "float64"
  | Complex64 => "complex64" | Complex128 => "complex128"
  | Array => "array" | Chan => "chan" | Func => "func"
  | Interface => "interface" | Map => "map" | Pointer => "ptr"
  | Slice => "slice" | String => "string" | Struct => "struct"
  | UnsafePointer => "unsafe.Pointer"
  end.

(** A [reflect.Type], as far as package [bind] looks at it. *)
Record Type_ := { TypeName : string; TypeKind : Kind }.

(** JSON values; [JObject] is [gin.H], that is [map[string]any]. *)
Inductive json :=
| JString (s : string)
| JArray (l : list json)
| JObject (m : gmap string json).

(** A call either panics or returns. *)
Inductive outcome (A : Type) :=
| Panics (msg : string)
| Returns (a : A).
Arguments Panics {A} _.
Arguments Returns {A} _.

(** [gin.H] *)
Abbreviation H := (gmap string json).

(** Whether a character belongs to the URL-safe alphabet: a letter, a
    digit, [-] or [_]. *)
Definition url_safe (a : Ascii.ascii) : bool :=
  let n := Ascii.nat_of_ascii a in
  ((65 <=? n) && (n <=? 90)) || ((97 <=? n) && (n <=? 122))
  || ((48 <=? n) && (n <=? 57)) || (n =? 45) || (n =? 95).

Fixpoint string_forall (p : Ascii.ascii -> bool) (s : string) : bool :=
  match s with
  | String.EmptyString => true
  | String.String a s => p a && string_forall p s
  end.

(** An error wrapped by [fmt.Errorf] with [%w], once per layer, the
    outermost layer first. *)
Fixpoint wrapped (layers : list (positive * string)) (err : error) : error :=
  match layers with
  | [] => err
  | (addr, text) :: layers => WrapError addr text (wrapped layers err)
  end.

End Go.

(* ===================================================================== *)
(** * The part of gin.Context used by packages bind and errors *)
(* ===================================================================== *)

Module Gin.
Import Go.

(** [http.Request]: what selects gin's binding, and the body
    ([Body = None] is Go's [nil] body). *)
Record Request := {
  Method : string;
  ContentType : string;
  RawQuery : string;
  Body : option Reader
}.

Definition with_Body (b : option Reader) (r : Request) : Request :=
  {| Method := Method r; ContentType := ContentType r;
     RawQuery := RawQuery r; Body := b |}.

(** What went out on the response, in order.  [WroteStatus code]: the
    header went out with status [code], and no body with it.
    [WroteJSON code obj]: [obj] was written as a JSON body to a response
    of status [code], the header going out with it unless it had gone
    out before. *)
Inductive Response :=
| WroteStatus (code : Z)
| WroteJSON (code : Z) (obj : H).

(** The status a response was written with. *)
Definition status_of (r : Response) : Z :=
  match r with
  | WroteStatus code => code
  | WroteJSON code _ => code
  end.

(** The JSON body of a response, if it has one. *)
Definition body_of (r : Response) : option H :=
  match r with
  | WroteStatus _ => None
  | WroteJSON _ obj => Some obj
  end.

(** gin's [bodyAllowedForStatus]: no body goes with 1xx, 204 and 304. *)
Definition bodyAllowedForStatus (code : Z) : bool :=
  negb ((100 <=? code)%Z && (code <=? 199)%Z)
  && negb (code =? 204)%Z && negb (code =? 304)%Z.

(** [gin.Context]; [Any] is the type of the values kept in [c.Keys].
    [Status] is the status held by the response writer ([c.Writer.Status()],
    200 at first); [Written] is what went out so far, empty as long as
    the header is not written.  The response headers, which packages
    bind and errors never read or set themselves, are left out. *)
Record Context (Any : Type) := {
  Req : Request;
  Keys : gmap string Any;
  Aborted : bool;
  Errors : list error;
  Status : Z;
  Written : list Response
}.
Arguments Req {Any} _.
Arguments Keys {Any} _.
Arguments Aborted {Any} _.
Arguments Errors {Any} _.
Arguments Status {Any} _.
Arguments Written {Any} _.

Section Methods.
Context {Any : Type}.
Implicit Type c : Context Any.

(** [c.Request.Body = b] *)
Definition set_Body (b : option Reader) c : Context Any :=
  {| Req := with_Body b (Req c); Keys := Keys c; Aborted := Aborted c;
     Errors := Errors c; Status := Status c; Written := Written c |}.

(** [c.Set(key, value)] *)
Definition Set_ (key : string) (value : Any) c : Context Any :=
  {| Req := Req c; Keys := <[key := value]> (Keys c);
     Aborted := Aborted c; Errors := Errors c; Status := Status c;
     Written := Written c |}.

(** [c.Get(key)] *)
Definition Get (key : string) c : option Any := Keys c !! key.

(** [c.Abort()] *)
Definition Abort c : Context Any :=
  {| Req := Req c; Keys := Keys c; Aborted := true;
     Errors := Errors c; Status := Status c; Written := Written c |}.

(** [c.Error(err)] *)
Definition Error (err : error) c : Context Any :=
  {| Req := Req c; Keys := Keys c; Aborted := Aborted c;
     Errors := Errors c ++ [err]; Status := Status c; Written := Written c |}.

Definition write (r : Response) c : Context Any :=
  {| Req := Req c; Keys := Keys c; Aborted := Aborted c;
     Errors := Errors c; Status := Status c; Written := Written c ++ [r] |}.

Definition set_Status (code : Z) c : Context Any :=
  {| Req := Req c; Keys := Keys c; Aborted := Aborted c;
     Errors := Errors c; Status := code; Written := Written c |}.

(** [c.Writer.Written()]: the header went out. *)
Definition written c : bool :=
  match Written c with
  | [] => false
  | _ :: _ => true
  end.

(** [c.Status(code)], that is the writer's [WriteHeader(code)]: a code
    that is not positive is ignored, and so is any code once the header
    went out. *)
Definition Status_ (code : Z) c : Context Any :=
  if (0 <? code)%Z && negb (Status c =? code)%Z && negb (written c)
  then set_Status code c
  else c.

(** [c.Writer.WriteHeaderNow()]: the header goes out with the status
    held, unless it went out before.  (net/http panics on a status
    outside 100..999; the statements about what goes out take the status
    in that range.) *)
Definition WriteHeaderNow c : Context Any :=
  if written c then c else write (WroteStatus (Status c)) c.

(** [c.JSON(code, obj)], that is [c.Render(code, render.JSON{obj})]:
    the status is set; when it allows no body the header alone goes out;
    otherwise [obj] is written, the header going out with it if need
    be. *)
Definition JSON (code : Z) (obj : H) c : Context Any :=
  let c := Status_ code c in
  if bodyAllowedForStatus code then write (WroteJSON (Status c) obj) c
  else WriteHeaderNow c.

(** [c.AbortWithStatus(code)]: [c.Status(code)],
    [c.Writer.WriteHeaderNow()], [c.Abort()]. *)
Definition AbortWithStatus (code : Z) c : Context Any :=
  Abort (WriteHeaderNow (Status_ code c)).

(** [c.AbortWithStatusJSON(code, obj)]: [c.Abort()], [c.JSON(code, obj)]. *)
Definition AbortWithStatusJSON (code : Z) (obj : H) c : Context Any :=
  JSON code obj (Abort c).

(** [c.IsAborted()] *)
Definition IsAborted c : bool := Aborted c.
End Methods.

(** A fresh context for a request, as [Engine.ServeHTTP] hands it to
    the first handler. *)
Definition new_Context {Any : Type} (r : Request) : Context Any :=
  {| Req := r; Keys := ∅; Aborted := false; Errors := []; Status := 200;
     Written := [] |}.

End Gin.

(* ===================================================================== *)
(** * Package bind (src/bind/bind.go) *)
(* ===================================================================== *)

Module Bind.
Import Go Gin.

(** The package-level variables [defaultKey], [defaultAbort],
    [defaultResponse], [defaultDetail], [defaultCode]. *)
Record Defaults := {
  defaultKey : string;
  defaultAbort : bool;
  defaultResponse : bool;
  defaultDetail : bool;
  defaultCode : Z
}.

(** Their values at package initialisation
    ([http.StatusBadRequest] is 400). *)
Definition initial_defaults : Defaults :=
  {| defaultKey := "body"; defaultAbort := false; defaultResponse := false;
     defaultDetail := false; defaultCode := 400 |}.

Definition SetDefaultKey (key : string) (d : Defaults) : Defaults :=
  {| defaultKey := key; defaultAbort := defaultAbort d;
     defaultResponse := defaultResponse d; defaultDetail := defaultDetail d;
     defaultCode := defaultCode d |}.

Definition SetDefaultAbort (abort : bool) (d : Defaults) : Defaults :=
  {| defaultKey := defaultKey d; defaultAbort := abort;
     defaultResponse := defaultResponse d; defaultDetail := defaultDetail d;
     defaultCode := defaultCode d |}.

Definition SetDefaultResponse (response : bool) (d : Defaults) : Defaults :=
  {| defaultKey := defaultKey d; defaultAbort := defaultAbort d;
     defaultResponse := response; defaultDetail := defaultDetail d;
     defaultCode := defaultCode d |}.

Definition SetDefaultCode (code : Z) (d : Defaults) : Defaults :=
  {| defaultKey := defaultKey d; defaultAbort := defaultAbort d;
     defaultResponse := defaultResponse d; defaultDetail := defaultDetail d;
     defaultCode := code |}.

Definition SetDefaultDetail (detail : bool) (d : Defaults) : Defaults :=
  {| defaultKey := defaultKey d; defaultAbort := defaultAbort d;
     defaultResponse := defaultResponse d; defaultDetail := detail;
     defaultCode := defaultCode d |}.

(** [type bindOpts struct] *)
Record bindOpts := {
  key : string;
  abort : bool;
  response : bool;
  detail : bool;
  code : Z
}.

(** [type BindOpts]: a function from a pointer to [bindOpts] to such a
    pointer; the exported mutators update in place and return their
    argument. *)
Definition BindOpts := bindOpts -> bindOpts.

Definition defaultBindOpts (d : Defaults) : bindOpts :=
  {| key := defaultKey d; abort := defaultAbort d;
     response := defaultResponse d; detail := defaultDetail d;
     code := defaultCode d |}.

(** [for _, f := range opts { bo = f(bo) }] *)
Definition getBindOpts (d : Defaults) (opts : list BindOpts) : bindOpts :=
  fold_left (fun bo f => f bo) opts (defaultBindOpts d).

Definition WithKey (k : string) : BindOpts := fun bo =>
  {| key := k; abort := abort bo; response := response bo;
     detail := detail bo; code := code bo |}.

Definition WithAbort : BindOpts := fun bo =>
  {| key := key bo; abort := true; response := response bo;
     detail := detail bo; code := code bo |}.

Definition WithResponse : BindOpts := fun bo =>
  {| key := key bo; abort := abort bo; response := true;
     detail := detail bo; code := code bo |}.

Definition WithResponseCode (c : Z) : BindOpts := fun bo =>
  {| key := key bo; abort := abort bo; response := true;
     detail := detail bo; code := c |}.

Definition WithResponseDetail : BindOpts := fun bo =>
  {| key := key bo; abort := abort bo; response := true;
     detail := true; code := code bo |}.

(** The option-mutators the package exports, by name. *)
Inductive Option_ :=
| OKey (k : string)
| OAbort
| OResponse
| OResponseCode (c : Z)
| OResponseDetail.

Definition mutator (o : Option_) : BindOpts :=
  match o with
  | OKey k => WithKey k
  | OAbort => WithAbort
  | OResponse => WithResponse
  | OResponseCode c => WithResponseCode c
  | OResponseDetail => WithResponseDetail
  end.

(** The three failure policies of [bindHandler], in the order of its
    [if opts.abort ... else if opts.response ... else] chain. *)
Inductive Policy := PolicyAbort | PolicyRespond | PolicySilent.

#[export] Instance Policy_eq_dec : EqDecision Policy.
Proof. solve_decision. Defined.

Definition policy (bo : bindOpts) : Policy :=
  if abort bo then PolicyAbort
  else if response bo then PolicyRespond
  else PolicySilent.

Section Handler.
(** [Any]: the values of type [interface{}] handed to the package
    (targets, prototypes).  [TypeOf] is [reflect.TypeOf] on a non-nil
    interface value, [New t] is [reflect.New(t).Interface()]. *)
Context {Any : Type}.
Variable TypeOf : Any -> Type_.
Variable New : Type_ -> Any.

(** [ctx.ShouldBind(target)], gin's decoder, from the request as it
    stands: how many bytes of the body it read, the target as it
    leaves it, the error. *)
Variable ShouldBind : Request -> Any -> nat * Any * option error.

Abbreviation Context := (Gin.Context Any).
Definition HandlerFunc := Context -> Context.

(** The request after a decoder read [n] bytes of its body. *)
Definition consumed (n : nat) (ctx : Context) : Context :=
  set_Body (advance n <$> Body (Req ctx)) ctx.

(** [{"field": fe.Field(), "rule": fe.Tag()}] *)
Definition field_entry (fe : FieldError) : json :=
  JObject (<["field" := JString (Field fe)]>
           (<["rule" := JString (Tag fe)]> ∅)).

(** [{"code": "validation_error", "errors": errs}] *)
Definition validation_body (vErr : list FieldError) : H :=
  <["code" := JString "validation_error"]>
  (<["errors" := JArray (field_entry <$> vErr)]> ∅).

(** The part of [bindHandler] from [// Handle binding] on; [body] is
    the buffer filled by the first part. *)
Definition bind_decode (ctx : Context) (target : Any) (opts : bindOpts)
    (body : bytes) : Context :=
  let '(n, target, err) := ShouldBind (Req ctx) target in
  let ctx := consumed n ctx in
  match err with
  | Some err =>
      if abort opts then
        Error err (Abort (set_Body (Some (NewReader body)) ctx))
      else if response opts then
        match errors_As_ValidationErrors err, detail opts with
        | Some vErr, true =>
            AbortWithStatusJSON (code opts) (validation_body vErr) ctx
        | _, _ =>
            AbortWithStatus (code opts) ctx
        end
      else ctx
  | None =>
      let ctx :=
        match Body (Req ctx) with
        | Some _ => set_Body (Some (NewReader body)) ctx
        | None => ctx
        end in
      Set_ (key opts) target ctx
  end.

Definition bindHandler (ctx : Context) (target : Any) (opts : bindOpts)
    : Context :=
  match Body (Req ctx) with
  | Some rd =>
      let '(rd, body, err) := ReadAll rd in
      match err with
      | Some _ => set_Body (Some rd) ctx
      | None => bind_decode (set_Body (Some (NewReader body)) ctx) target opts body
      end
  | None => bind_decode ctx target opts []
  end.

(** [As(pv, opts...)] *)
Definition As (d : Defaults) (pv : unit -> Any) (opts : list BindOpts)
    : HandlerFunc :=
  let bo := getBindOpts d opts in
  fun ctx => let v := pv tt in bindHandler ctx v bo.

(** [To(s, opts...)]; [s = None] is the nil interface, for which
    [reflect.TypeOf] returns nil and [t.Kind()] dereferences it. *)
Definition To (d : Defaults) (s : option Any) (opts : list BindOpts)
    : outcome HandlerFunc :=
  let bo := getBindOpts d opts in
  match TypeOf <$> s with
  | None => Panics "runtime error: invalid memory address or nil pointer dereference"
  | Some t =>
      if decide (TypeKind t ≠ Struct) then
        Panics ("BindTo() must be given a struct, received " +:+ Kind_String (TypeKind t))
      else
        Returns (fun ctx => let v := New t in bindHandler ctx v bo)
  end.
End Handler.

(** ** Notions used in the statements *)

(** The buffer [bindHandler] fills from the body of the request: empty
    when there is no body, none when reading the body fails. *)
Definition buffered {Any : Type} (ctx : Gin.Context Any) : option bytes :=
  match Body (Req ctx) with
  | Some rd =>
      match fault rd with
      | Some _ => None
      | None => Some (pending rd)
      end
  | None => Some []
  end.

(** The context as the decoder finds it: the body, if any, replaced by a
    reader over the buffer. *)
Definition replayed {Any : Type} (ctx : Gin.Context Any) : Gin.Context Any :=
  match Body (Req ctx) with
  | Some rd => set_Body (Some (NewReader (pending rd))) ctx
  | None => ctx
  end.

(** What a later handler gets when it reads the body of the request to
    its end: nothing to read when the request has no body. *)
Definition body_read {Any : Type} (ctx : Gin.Context Any) : option (bytes * option error) :=
  (fun rd => (pending rd, fault rd)) <$> Body (Req ctx).

(** The last key and the last status code a list of options sets. *)
Definition last_key (l : list Option_) : option string :=
  fold_left (fun acc o => match o with OKey k => Some k | _ => acc end) l None.

Definition last_code (l : list Option_) : option Z :=
  fold_left (fun acc o => match o with OResponseCode c => Some c | _ => acc end) l None.

Definition sets_abort (o : Option_) : bool :=
  match o with OAbort => true | _ => false end.

Definition sets_response (o : Option_) : bool :=
  match o with
  | OResponse | OResponseCode _ | OResponseDetail => true
  | _ => false
  end.

Definition sets_detail (o : Option_) : bool :=
  match o with OResponseDetail => true | _ => false end.

(** The policy under the reading "abort and respond are mutually
    exclusive, last one wins if both specified". *)
Definition last_wins (d : Defaults) (l : list Option_) : Policy :=
  fold_left
    (fun p o =>
       if sets_abort o then PolicyAbort
       else if sets_response o then PolicyRespond
       else p)
    l (policy (defaultBindOpts d)).

(** Whether [s] has the shape of a struct. *)
Definition struct_shaped {Any : Type} (TypeOf : Any -> Type_) (s : option Any) : bool :=
  match s with
  | Some v => bool_decide (TypeKind (TypeOf v) = Struct)
  | None => false
  end.

End Bind.


(* ===================================================================== *)
(** * Package errors (src/errors/errors.go) *)
(* ===================================================================== *)

Module Errors.
Import Go Gin.

(** [ErrNoDetail = fmt.Errorf("error: no detail")], allocated once when
    the package is initialised. *)
Definition ErrNoDetail : error := ErrorString 1 "error: no detail".

Section Helper.
Context {Any : Type}.

(** [wtf.IsThisError], of github.com/richjyoung/wtf: the description of
    an error that goes into the response. *)
Variable IsThisError : error -> json.

(** [AbortWithError(ctx, err, status, code)]; [detail] is the package
    variable of that name, [err = None] is the nil error. *)
Definition AbortWithError (detail : bool) (ctx : Context Any)
    (err : option error) (status : Z) (code : string) : Context Any * bool :=
  match err with
  | Some err =>
      let body : H := <["code" := JString code]> ∅ in
      let body :=
        if detail && negb (errors_Is err ErrNoDetail)
        then <["error" := IsThisError err]> body
        else body in
      (AbortWithStatusJSON status body ctx, true)
  | None => (ctx, false)
  end.

(** [AbortWith(ctx, status, code)] *)
Definition AbortWith (detail : bool) (ctx : Context Any) (status : Z)
    (code : string) : Context Any * bool :=
  AbortWithError detail ctx (Some ErrNoDetail) status code.

End Helper.

(** [SetErrorDetailOutput(output)]: the new value of [detail]. *)
Definition SetErrorDetailOutput (output : bool) (detail : bool) : bool := output.

End Errors.

(* ===================================================================== *)
(** * Package zlog (src/zlog/zlog.go) *)
(* ===================================================================== *)

Module Zlog.
Import Go.

(** ** zerolog, as far as the package calls it *)

(** [zerolog.Level], an [int8]. *)
Inductive Level :=
| TraceLevel | DebugLevel | InfoLevel | WarnLevel | ErrorLevel
| FatalLevel | PanicLevel | NoLevel | Disabled.

#[export] Instance Level_eq_dec : EqDecision Level.
Proof. solve_decision. Defined.

Definition Level_value (l : Level) : Z :=
  match l with
  | TraceLevel => -1 | DebugLevel => 0 | InfoLevel => 1 | WarnLevel => 2
  | ErrorLevel => 3 | FatalLevel => 4 | PanicLevel => 5 | NoLevel => 6
  | Disabled => 7
  end.

(** Values of the fields of a record ([Str], [Int], [Dur]). *)
Inductive Value :=
| VStr (s : string)
| VInt (n : Z)
| VDur (d : Z).

Definition Fields := list (string * Value).

(** A [zerolog.Logger] value: its minimum level and the fields of its context.
    Every logger of a process writes to the sink of [log.Logger]. *)
Record ZLogger := { level : Level; context : Fields }.

(** [l.Level(lvl)]: a copy of [l] with another minimum level. *)
Definition Logger_Level (lvl : Level) (l : ZLogger) : ZLogger :=
  {| level := lvl; context := context l |}.

(** [l.With().Str(k, v).Logger()]: a copy of [l] with one more field. *)
Definition With_Str (k v : string) (l : ZLogger) : ZLogger :=
  {| level := level l; context := context l ++ [(k, VStr v)] |}.

(** [fmt.Sprintf(format, args...)], kept as the format and its operands. *)
Record Message := Sprintf { format : string; operands : list Value }.

(** A line of the log. *)
Record Record_ := {
  rec_level : Level;
  rec_fields : Fields;
  rec_message : Message
}.

(** A [*zerolog.Event] that is not nil: its level and the fields so far
    (those of the logger first). *)
Record Event := { ev_level : Level; ev_fields : Fields }.

(** [l.should(lvl)], with [global] the value of [zerolog.GlobalLevel()]. *)
Definition should (global : Level) (l : ZLogger) (lvl : Level) : bool :=
  negb ((Level_value lvl <? Level_value (level l))%Z
        || (Level_value lvl <? Level_value global)%Z).

(** [l.WithLevel(lvl)]: [None] is the nil event on which every method
    does nothing. *)
Definition WithLevel (global : Level) (l : ZLogger) (lvl : Level) : option Event :=
  match lvl with
  | Disabled => None
  | _ =>
      if should global l lvl
      then Some {| ev_level := lvl; ev_fields := context l |}
      else None
  end.

Definition add_field (k : string) (v : Value) (e : option Event) : option Event :=
  (fun e => {| ev_level := ev_level e; ev_fields := ev_fields e ++ [(k, v)] |}) <$> e.

(** [e.Str(k, v)], [e.Int(k, n)], [e.Dur(k, d)] *)
Definition Str (k v : string) := add_field k (VStr v).
Definition Int_ (k : string) (n : Z) := add_field k (VInt n).
Definition Dur (k : string) (d : Z) := add_field k (VDur d).

(** ** The process and the request *)

(** Package variables: [globalRequestLevel] and [globalResponseLevel] of
    zlog, [zerolog.GlobalLevel()], and [log.Logger]. *)
Record Globals := {
  globalRequestLevel : Level;
  globalResponseLevel : Level;
  GlobalLevel : Level;
  log_Logger : ZLogger
}.

Definition initial_globals : Globals :=
  {| globalRequestLevel := TraceLevel; globalResponseLevel := DebugLevel;
     GlobalLevel := TraceLevel;
     log_Logger := {| level := TraceLevel; context := [] |} |}.

Definition SetGlobalRequestLevel (lvl : Level) (g : Globals) : Globals :=
  {| globalRequestLevel := lvl; globalResponseLevel := globalResponseLevel g;
     GlobalLevel := GlobalLevel g; log_Logger := log_Logger g |}.

Definition SetGlobalResponseLevel (lvl : Level) (g : Globals) : Globals :=
  {| globalRequestLevel := globalRequestLevel g; globalResponseLevel := lvl;
     GlobalLevel := GlobalLevel g; log_Logger := log_Logger g |}.

(** What a handler sees and changes: the process ([globals], the stream
    of [crypto/rand], the clock, the log written so far) and the
    [gin.Context] of the request (request line and headers, the logger
    stored under [loggerKey{}] in the request's context, the response
    writer, the abort flag). *)
Record World := {
  globals : Globals;
  rand : bytes;
  clock : Z;
  out : list Record_;
  Method : string;
  Path : string;
  ClientIP : string;
  ReqHeader : gmap string string;
  stored : option ZLogger;
  RespHeader : gmap string string;
  Status : Z;
  Size : Z;
  Aborted : bool
}.

Definition set_rand (r : bytes) (c : World) : World :=
  {| globals := globals c; rand := r; clock := clock c; out := out c;
     Method := Method c; Path := Path c; ClientIP := ClientIP c;
     ReqHeader := ReqHeader c; stored := stored c;
     RespHeader := RespHeader c; Status := Status c; Size := Size c;
     Aborted := Aborted c |}.

Definition set_clock (t : Z) (c : World) : World :=
  {| globals := globals c; rand := rand c; clock := t; out := out c;
     Method := Method c; Path := Path c; ClientIP := ClientIP c;
     ReqHeader := ReqHeader c; stored := stored c;
     RespHeader := RespHeader c; Status := Status c; Size := Size c;
     Aborted := Aborted c |}.

Definition set_out (o : list Record_) (c : World) : World :=
  {| globals := globals c; rand := rand c; clock := clock c; out := o;
     Method := Method c; Path := Path c; ClientIP := ClientIP c;
     ReqHeader := ReqHeader c; stored := stored c;
     RespHeader := RespHeader c; Status := Status c; Size := Size c;
     Aborted := Aborted c |}.

Definition set_stored (l : option ZLogger) (c : World) : World :=
  {| globals := globals c; rand := rand c; clock := clock c; out := out c;
     Method := Method c; Path := Path c; ClientIP := ClientIP c;
     ReqHeader := ReqHeader c; stored := l;
     RespHeader := RespHeader c; Status := Status c; Size := Size c;
     Aborted := Aborted c |}.

Definition set_RespHeader (h : gmap string string) (c : World) : World :=
  {| globals := globals c; rand := rand c; clock := clock c; out := out c;
     Method := Method c; Path := Path c; ClientIP := ClientIP c;
     ReqHeader := ReqHeader c; stored := stored c;
     RespHeader := h; Status := Status c; Size := Size c;
     Aborted := Aborted c |}.

Definition set_writer (status size : Z) (c : World) : World :=
  {| globals := globals c; rand := rand c; clock := clock c; out := out c;
     Method := Method c; Path := Path c; ClientIP := ClientIP c;
     ReqHeader := ReqHeader c; stored := stored c;
     RespHeader := RespHeader c; Status := status; Size := size;
     Aborted := Aborted c |}.

Definition set_Aborted (a : bool) (c : World) : World :=
  {| globals := globals c; rand := rand c; clock := clock c; out := out c;
     Method := Method c; Path := Path c; ClientIP := ClientIP c;
     ReqHeader := ReqHeader c; stored := stored c;
     RespHeader := RespHeader c; Status := Status c; Size := Size c;
     Aborted := a |}.

(** [io.ReadFull(rand.Reader, buf)] for a zeroed [buf] of [n] bytes:
    the buffer afterwards (zero where the stream ran short; the error is
    dropped by the caller). *)
Definition ReadFull (n : nat) (c : World) : bytes * World :=
  (take n (rand c ++ replicate n Byte.x00), set_rand (drop n (rand c)) c).

(** [c.Header(key, value)]: an empty value deletes the header. *)
Definition Header (k v : string) (c : World) : World :=
  if decide (v = "") then set_RespHeader (delete k (RespHeader c)) c
  else set_RespHeader (<[k := v]> (RespHeader c)) c.

(** [writeContentType(w, value)] of gin's renderers: the Content-Type is
    set unless the response has one. *)
Definition writeContentType (value : string) (c : World) : World :=
  match RespHeader c !! "Content-Type" with
  | Some _ => c
  | None => set_RespHeader (<["Content-Type" := value]> (RespHeader c)) c
  end.

Definition plainContentType : string := "text/plain; charset=utf-8".

(** [c.GetHeader(key)] *)
Definition GetHeader (k : string) (c : World) : string :=
  default "" (ReqHeader c !! k).

(** [e.Msg(msg)]: the record is written unless the event is nil. *)
Definition Msg (msg : Message) (e : option Event) (c : World) : World :=
  match e with
  | Some e =>
      set_out (out c ++ [{| rec_level := ev_level e;
                            rec_fields := ev_fields e;
                            rec_message := msg |}]) c
  | None => c
  end.

(** gin's response writer: [c.Status(code)], [WriteHeaderNow()], a write
    of [n] bytes.  [Size] is -1 until the header is written. *)
Definition Written (c : World) : bool := negb (Size c =? -1)%Z.

Definition Status_ (code : Z) (c : World) : World :=
  if (0 <? code)%Z && negb (Status c =? code)%Z && negb (Written c)
  then set_writer code (Size c) c else c.

Definition WriteHeaderNow (c : World) : World :=
  if Written c then c else set_writer (Status c) 0 c.

Definition Write_ (n : Z) (c : World) : World :=
  let c := WriteHeaderNow c in set_writer (Status c) (Size c + n) c.

Definition bodyAllowedForStatus (code : Z) : bool :=
  negb ((100 <=? code)%Z && (code <=? 199)%Z)
  && negb (code =? 204)%Z && negb (code =? 304)%Z.

(** ** The package *)

(** [WithLogger] followed by [c.Request.WithContext], that is
    [setLogger(c, &logger)]. *)
Definition setLogger (logger : ZLogger) (c : World) : World :=
  set_stored (Some logger) c.

(** [GetLogger(ctx)] for the [*gin.Context] of the request: the logger
    stored in the request's context, or [log.Logger]. *)
Definition GetLogger (c : World) : ZLogger :=
  match stored c with
  | Some logger => logger
  | None => log_Logger (globals c)
  end.

(** [SetLevel(lvl)] *)
Definition SetLevel (lvl : Level) (ctx : World) : World :=
  let logger := Logger_Level lvl (GetLogger ctx) in
  setLogger logger ctx.

(** The body of the handler [Logger(lvl)] returns, up to [c.Next()]. *)
Definition Logger_request (lvl : Level) (c : World) : World :=
  let '(requestIDBytes, c) := ReadFull 8 c in
  let requestID := RawURLEncoding requestIDBytes in
  let c := Header "X-Request-ID" requestID c in
  let logger := Logger_Level lvl (With_Str "id" requestID (log_Logger (globals c))) in
  let c := setLogger logger c in
  Msg (Sprintf "REQ %s %s %s" [VStr (Method c); VStr (Path c); VStr (ClientIP c)])
    (Str "ip" (ClientIP c)
      (Str "path" (Path c)
        (Str "origin" (GetHeader "Origin" c)
          (Str "method" (Method c)
            (WithLevel (GlobalLevel (globals c)) logger
               (globalRequestLevel (globals c)))))))
    c.

(** The body of that handler after [c.Next()]; [start] is the time read
    on entry. *)
Definition Logger_response (start : Z) (c : World) : World :=
  let elapsed := (clock c - start)%Z in
  Msg (Sprintf "RES %s %s %d %s %s"
         [VStr (Method c); VStr (Path c); VInt (Status c); VDur elapsed;
          VStr (ClientIP c)])
    (Dur "time" elapsed
      (Int_ "bytes" (Size c)
        (Int_ "response" (Status c)
          (Str "ip" (ClientIP c)
            (Str "request" (Path c)
              (Str "method" (Method c)
                (WithLevel (GlobalLevel (globals c)) (GetLogger c)
                   (globalResponseLevel (globals c)))))))))
    c.

(** The handler [Logger(lvl)] returns; [Next] is [c.Next()]. *)
Definition Logger (lvl : Level) (Next : World -> World) (c : World) : World :=
  let start := clock c in
  let c := Logger_request lvl c in
  let c := Next c in
  Logger_response start c.

(** ** Handler chains *)

(** What a handler of the application does, step by step. *)
Inductive Action :=
| ALog (lvl : Level) (msg : string)
| AAbortWithStatus (code : Z)
| AString (code : Z) (text : string)
| AWithLogger (l : ZLogger)
| ASleep (d : Z).

(** The handlers of a route: the two of the package, and those of the
    application. *)
Inductive Handler :=
| HLogger (lvl : Level)
| HSetLevel (lvl : Level)
| HApp (body : list Action).

Definition act (a : Action) (c : World) : World :=
  match a with
  | ALog lvl msg =>
      Msg (Sprintf msg [])
        (WithLevel (GlobalLevel (globals c)) (GetLogger c) lvl) c
  | AAbortWithStatus code =>
      set_Aborted true (WriteHeaderNow (Status_ code c))
  | AString code text =>
      let c := Status_ code c in
      let c := writeContentType plainContentType c in
      if bodyAllowedForStatus code
      then Write_ (Z.of_nat (String.length text)) c
      else WriteHeaderNow c
  | AWithLogger l => setLogger l c
  | ASleep d => set_clock (clock c + d)%Z c
  end.

(** [c.Next()] with [handlers] the handlers after the running one: each
    runs unless the chain was aborted; [Logger] runs the rest itself. *)
Fixpoint Next (handlers : list Handler) (c : World) : World :=
  match handlers with
  | [] => c
  | h :: rest =>
      if Aborted c then c
      else
        match h with
        | HLogger lvl => Logger lvl (Next rest) c
        | HSetLevel lvl => Next rest (SetLevel lvl c)
        | HApp body => Next rest (foldl (fun c a => act a c) c body)
        end
  end.

(** A request as [Engine.ServeHTTP] hands it to the chain. *)
Definition new_World (g : Globals) (r : bytes) (now : Z)
    (method path ip : string) (hdr : gmap string string) : World :=
  {| globals := g; rand := r; clock := now; out := [];
     Method := method; Path := path; ClientIP := ip; ReqHeader := hdr;
     stored := None; RespHeader := ∅; Status := 200; Size := -1;
     Aborted := false |}.

(** ** Notions used in the statements *)

(** Whether a logger of minimum level [min] writes an event of level
    [lvl] when zerolog's global level is [global]. *)
Definition writes (global min lvl : Level) : bool :=
  bool_decide (lvl <> Disabled)
  && (Level_value min <=? Level_value lvl)%Z
  && (Level_value global <=? Level_value lvl)%Z.

(** The records [e.Msg(msg)] adds to the log. *)
Definition records (msg : Message) (e : option Event) : list Record_ :=
  match e with
  | Some e => [{| rec_level := ev_level e; rec_fields := ev_fields e;
                  rec_message := msg |}]
  | None => []
  end.

(** Whether an event is written: it is not nil. *)
Definition fires (e : option Event) : bool :=
  match e with Some _ => true | None => false end.

(** An event, if not nil, has level [lvl] and starts with the fields
    [fs]. *)
Definition extends (lvl : Level) (fs : Fields) (e : option Event) : Prop :=
  forall e', e = Some e' ->
    ev_level e' = lvl /\ exists more, ev_fields e' = fs ++ more.

(** The request identifier [Logger] draws in [c]. *)
Definition requestID (c : World) : string := RawURLEncoding (ReadFull 8 c).1.

(** A record carries the request identifier [id]. *)
Definition tagged (id : string) (r : Record_) : Prop :=
  ("id", VStr id) ∈ rec_fields r.

(** Handlers other than [Logger]. *)
Definition not_Logger (h : Handler) : bool :=
  match h with HLogger _ => false | _ => true end.

(** Handlers that leave the stored logger alone, or change its level
    through [SetLevel] only. *)
Definition keeps_logger (h : Handler) : bool :=
  match h with
  | HLogger _ => false
  | HSetLevel _ => true
  | HApp body =>
      forallb (fun a => match a with AWithLogger _ => false | _ => true end) body
  end.

(** ** Contexts other than the one of a request *)

(** A [context.Context], as far as the package looks at it: the values
    attached by [context.WithValue], the innermost first.  A value under
    [loggerKey{}] is a pointer to a logger ([None] is the nil pointer);
    other packages attach values under keys of their own. *)
Inductive Key := loggerKey | otherKey (name : string).

#[export] Instance Key_eq_dec : EqDecision Key.
Proof. solve_decision. Defined.

Inductive Attached :=
| ALogger (logger : option ZLogger)
| AOther (text : string).

Definition context_Context := list (Key * Attached).

(** [context.Background()] *)
Definition Background : context_Context := [].

(** [context.WithValue(parent, key, val)] *)
Definition WithValue (parent : context_Context) (k : Key) (v : Attached)
    : context_Context :=
  (k, v) :: parent.

(** [ctx.Value(key)] *)
Fixpoint Value_of (ctx : context_Context) (k : Key) : option Attached :=
  match ctx with
  | [] => None
  | (k', v) :: parent => if decide (k' = k) then Some v else Value_of parent k
  end.

(** [WithLogger(parent, logger)] *)
Definition WithLogger (parent : context_Context) (logger : option ZLogger)
    : context_Context :=
  WithValue parent loggerKey (ALogger logger).

(** [GetLogger(ctx)] for a context that is not a [*gin.Context]: the
    pointer stored under [loggerKey{}], nil if a nil pointer was stored,
    or the address of [log.Logger] when nothing is stored.  The type
    assertion panics on a value that is no logger. *)
Definition GetLogger_of (g : Globals) (ctx : context_Context)
    : outcome (option ZLogger) :=
  match Value_of ctx loggerKey with
  | Some (ALogger logger) => Returns logger
  | Some (AOther _) =>
      Panics "interface conversion: interface {} is not *zerolog.Logger"
  | None => Returns (Some (log_Logger g))
  end.

(** The package variables changed at start-up. *)
Definition set_globals (g : Globals) (c : World) : World :=
  {| globals := g; rand := rand c; clock := clock c; out := out c;
     Method := Method c; Path := Path c; ClientIP := ClientIP c;
     ReqHeader := ReqHeader c; stored := stored c;
     RespHeader := RespHeader c; Status := Status c; Size := Size c;
     Aborted := Aborted c |}.

End Zlog.

(* ===================================================================== *)
(** * Sample values, decoders and requests *)
(* ===================================================================== *)

Module Sample.
Import Go Gin.

(** Go values for the examples: a struct value of a named type with the
    document decoded into it, a pointer, an integer. *)
Inductive value :=
| VStruct (name : string) (doc : bytes)
| VPtr (v : value)
| VInt (n : Z).

Definition TypeOf (v : value) : Type_ :=
  match v with
  | VStruct name _ => {| TypeName := name; TypeKind := Struct |}
  | VPtr _ => {| TypeName := "ptr"; TypeKind := Pointer |}
  | VInt _ => {| TypeName := "int"; TypeKind := Int |}
  end.

Definition New (t : Type_) : value := VPtr (VStruct (TypeName t) []).

Definition fill (target : value) (doc : bytes) : value :=
  match target with
  | VPtr (VStruct name _) => VPtr (VStruct name doc)
  | _ => target
  end.

Definition closes (doc : bytes) : bool :=
  match last doc with
  | Some b => Byte.eqb b Byte.x7d
  | None => false
  end.

(** A decoder in the manner of gin's JSON binding: it fails on a nil
    body, and otherwise reads the body to its end and fails unless the
    document ends with a closing brace. *)
Definition ShouldBindJSON (r : Request) (target : value) : nat * value * option error :=
  match Body r with
  | None => (0%nat, target, Some (ErrorString 2 "invalid request"))
  | Some rd =>
      let doc := pending rd in
      if closes doc then (length doc, fill target doc, None)
      else (length doc, target, Some (ErrorString 3 "unexpected EOF"))
  end.

(** A decoder in the manner of gin's query binding: it leaves the body
    alone and decodes the query string. *)
Definition ShouldBindQuery (r : Request) (target : value) : nat * value * option error :=
  (0%nat, fill target (bytes_of (RawQuery r)), None).

(** The choice [ctx.ShouldBind] makes: the query for a GET request, the
    body otherwise. *)
Definition ShouldBind (r : Request) (target : value) : nat * value * option error :=
  if String.eqb (Method r) "GET" then ShouldBindQuery r target
  else ShouldBindJSON r target.

Definition post (body : option bytes) : Request :=
  {| Method := "POST"; ContentType := "application/json"; RawQuery := "";
     Body := NewReader <$> body |}.

Definition get (query : string) : Request :=
  {| Method := "GET"; ContentType := ""; RawQuery := query; Body := None |}.

Definition TestingBody : value := VStruct "TestingBody" [].

Definition malformed : bytes := bytes_of "{id: invalid_json".
Definition wellformed : bytes := bytes_of "{test: asdf}".

Definition ctx_malformed : Context value := new_Context (post (Some malformed)).
Definition ctx_wellformed : Context value := new_Context (post (Some wellformed)).
Definition ctx_empty : Context value := new_Context (post None).
Definition ctx_query : Context value := new_Context (get "limit=20").

(** A GET request for [/] with an [Origin] header, on a process with the
    initial settings of zlog and zerolog. *)
Definition world : Zlog.World :=
  Zlog.new_World Zlog.initial_globals (bytes_of "12345678abcdefgh") 100
    "GET" "/" "127.0.0.1" (<["Origin" := "http://localhost:8080"]> ∅).

(** A decoder in the manner of gin's binding of a struct with a
    [required] field: the JSON decoder first, then the validator, which
    rejects the empty object for its missing field [Test]. *)
Definition ShouldBindRequired (r : Request) (target : value)
    : nat * value * option error :=
  match ShouldBindJSON r target with
  | (n, v, None) =>
      if bool_decide (n = 2%nat)
      then (n, v, Some (ValidationErrors [{| Field := "Test"; Tag := "required" |}]))
      else (n, v, None)
  | failed => failed
  end.

(** The empty object, and a request whose body breaks off while it is
    read. *)
Definition unfilled : bytes := bytes_of "{}".
Definition ctx_unfilled : Context value := new_Context (post (Some unfilled)).

Definition broken : Reader :=
  {| pending := bytes_of "{test: as";
     fault := Some (ErrorString 4 "connection reset by peer") |}.

Definition ctx_broken : Context value :=
  new_Context {| Method := "POST"; ContentType := "application/json";
                 RawQuery := ""; Body := Some broken |}.

(** A description of an error in the manner of [wtf.IsThisError]: its
    text. *)
Definition describe (err : error) : json :=
  match err with
  | ErrorString _ text => JString text
  | WrapError _ text _ => JString text
  | ValidationErrors _ => JString "validation failed"
  end.

(** An error of the application. *)
Definition not_found : error := ErrorString 5 "record not found".

End Sample.

(* ===================================================================== *)
(** * gin's response writer *)
(* ===================================================================== *)

Module GinSpec.
Import Go Gin.

Section Writer.
Context {Any : Type}.
Implicit Type c : Context Any.

Lemma context_Status_frame (code : Z) c :
  exists s, Status_ code c = set_Status s c /\
            ((0 < code)%Z -> Written c = [] -> s = code) /\
            (Written c <> [] -> s = Status c).
Proof.
  unfold Status_, written.
  destruct (0 <? code)%Z eqn:E1; cbn.
  - destruct (Status c =? code)%Z eqn:E2; cbn.
    + exists (Status c). split; [by destruct c|]. split; [|done].
      intros _ _. by apply Z.eqb_eq.
    + destruct (Written c) eqn:E3; cbn.
      * exists code. by split.
      * exists (Status c). split; [by destruct c|]. by split.
  - exists (Status c). split; [by destruct c|]. split; [|done].
    intros H. apply Z.ltb_lt in H. congruence.
Qed.

(** What [c.AbortWithStatus] changes: the abort flag, the status held,
    and at most one header going out. *)
Lemma AbortWithStatus_frame (code : Z) c :
  Req (AbortWithStatus code c) = Req c /\
  Keys (AbortWithStatus code c) = Keys c /\
  Errors (AbortWithStatus code c) = Errors c /\
  Aborted (AbortWithStatus code c) = true /\
  exists ws, Written (AbortWithStatus code c) = Written c ++ ws /\
             (length ws <= 1)%nat.
Proof.
  unfold AbortWithStatus, WriteHeaderNow.
  destruct (context_Status_frame code c) as (s & -> & _).
  unfold written. cbn. destruct (Written c) eqn:E; cbn; rewrite ?E.
  - do 4 (split; [done|]). exists [WroteStatus s]; split; [done|cbn; lia].
  - do 4 (split; [done|]). exists []; rewrite app_nil_r; split; [done|cbn; lia].
Qed.

(** What [c.AbortWithStatusJSON] changes: the same, with at most one
    header or body going out. *)
Lemma AbortWithStatusJSON_frame (code : Z) (obj : H) c :
  Req (AbortWithStatusJSON code obj c) = Req c /\
  Keys (AbortWithStatusJSON code obj c) = Keys c /\
  Errors (AbortWithStatusJSON code obj c) = Errors c /\
  Aborted (AbortWithStatusJSON code obj c) = true /\
  exists ws, Written (AbortWithStatusJSON code obj c) = Written c ++ ws /\
             (length ws <= 1)%nat.
Proof.
  unfold AbortWithStatusJSON, JSON, WriteHeaderNow.
  destruct (context_Status_frame code (Abort c)) as (s & -> & _).
  unfold written. cbn. destruct (bodyAllowedForStatus code); cbn.
  - do 4 (split; [done|]). eexists [_]; split; [done|cbn; lia].
  - destruct (Written c) eqn:E; cbn; rewrite ?E.
    + do 4 (split; [done|]). exists [WroteStatus s]; split; [done|cbn; lia].
    + do 4 (split; [done|]). exists []; rewrite app_nil_r; split; [done|cbn; lia].
Qed.

(** On a response not written to yet, a positive status goes out as
    given. *)
Lemma AbortWithStatus_fresh (code : Z) c :
  Written c = [] -> (0 < code)%Z ->
  Written (AbortWithStatus code c) = [WroteStatus code].
Proof.
  intros Hw Hc. unfold AbortWithStatus, WriteHeaderNow.
  destruct (context_Status_frame code c) as (s & -> & Hs & _).
  unfold written. cbn. rewrite Hw. cbn. by rewrite Hw, (Hs Hc Hw).
Qed.

Lemma AbortWithStatusJSON_fresh (code : Z) (obj : H) c :
  Written c = [] -> (0 < code)%Z ->
  Written (AbortWithStatusJSON code obj c)
  = if bodyAllowedForStatus code then [WroteJSON code obj]
    else [WroteStatus code].
Proof.
  intros Hw Hc. unfold AbortWithStatusJSON, JSON, WriteHeaderNow.
  destruct (context_Status_frame code (Abort c)) as (s & -> & Hs & _).
  unfold written. cbn. rewrite Hw. cbn.
  rewrite (Hs Hc Hw). by destruct (bodyAllowedForStatus code); cbn; rewrite ?Hw.
Qed.


End Writer.

End GinSpec.

(* ===================================================================== *)
(** * Properties of package bind *)
(* ===================================================================== *)

Module BindSpec.
Import Go Gin Bind.

(** ** Options *)

Lemma getBindOpts_snoc (d : Defaults) (opts : list BindOpts) (f : BindOpts) :
  getBindOpts d (opts ++ [f]) = f (getBindOpts d opts).
Proof. unfold getBindOpts. by rewrite fold_left_app. Qed.

Lemma last_key_snoc (l : list Option_) (o : Option_) :
  last_key (l ++ [o]) = match o with OKey k => Some k | _ => last_key l end.
Proof. unfold last_key. by rewrite fold_left_app. Qed.

Lemma last_code_snoc (l : list Option_) (o : Option_) :
  last_code (l ++ [o]) = match o with OResponseCode c => Some c | _ => last_code l end.
Proof. unfold last_code. by rewrite fold_left_app. Qed.

Lemma existsb_snoc {A : Type} (f : A -> bool) (l : list A) (a : A) :
  existsb f (l ++ [a]) = existsb f l || f a.
Proof. rewrite existsb_app. simpl. by rewrite orb_false_r. Qed.

(** The options a list of exported mutators builds, field by field. *)
Lemma getBindOpts_fields (d : Defaults) (l : list Option_) :
  let bo := getBindOpts d (mutator <$> l) in
  key bo = default (defaultKey d) (last_key l) /\
  code bo = default (defaultCode d) (last_code l) /\
  abort bo = defaultAbort d || existsb sets_abort l /\
  response bo = defaultResponse d || existsb sets_response l /\
  detail bo = defaultDetail d || existsb sets_detail l.
Proof.
  induction l as [|o l IH] using rev_ind.
  - cbn. by rewrite !orb_false_r.
  - cbn zeta in *. rewrite fmap_app. cbn [fmap list_fmap].
    rewrite getBindOpts_snoc, last_key_snoc, last_code_snoc, !existsb_snoc.
    destruct IH as (Hk & Hc & Ha & Hr & Hd).
    destruct o; cbn; rewrite ?Hk, ?Hc, ?Ha, ?Hr, ?Hd, ?orb_false_r, ?orb_true_r;
      auto.
Qed.

Section Decoder.
Context {Any : Type}.
Variable TypeOf : Any -> Type_.
Variable New : Type_ -> Any.
Variable ShouldBind : Request -> Any -> nat * Any * option error.

Implicit Type ctx : Gin.Context Any.

(** ** The two halves of [bindHandler] *)

Lemma bindHandler_buffered ctx (target : Any) (opts : bindOpts) (body : bytes) :
  buffered ctx = Some body ->
  bindHandler ShouldBind ctx target opts
  = bind_decode ShouldBind (replayed ctx) target opts body.
Proof.
  unfold buffered, bindHandler, replayed, ReadAll.
  destruct (Body (Req ctx)) as [rd|]; [|by intros [= <-]].
  destruct (fault rd); [done|]. by intros [= <-].
Qed.

Lemma Body_replayed ctx :
  Body (Req (replayed ctx)) = (fun rd => NewReader (pending rd)) <$> Body (Req ctx).
Proof. unfold replayed. by destruct (Body (Req ctx)) eqn:E; cbn; rewrite ?E. Qed.

Lemma set_Body_same ctx :
  set_Body (Body (Req ctx)) ctx = ctx.
Proof. by destruct ctx as [[] ? ? ? ?]. Qed.

(** What the three policies do with a decoding error. *)
Lemma bind_decode_failure ctx (target v : Any) (opts : bindOpts) (body : bytes)
    (n : nat) (err : error) :
  ShouldBind (Req ctx) target = (n, v, Some err) ->
  bind_decode ShouldBind ctx target opts body =
    match policy opts with
    | PolicyAbort =>
        Error err (Abort (set_Body (Some (NewReader body)) (consumed n ctx)))
    | PolicyRespond =>
        match errors_As_ValidationErrors err, detail opts with
        | Some vErr, true =>
            AbortWithStatusJSON (code opts) (validation_body vErr) (consumed n ctx)
        | _, _ => AbortWithStatus (code opts) (consumed n ctx)
        end
    | PolicySilent => consumed n ctx
    end.
Proof.
  intros E. unfold bind_decode, policy. rewrite E.
  by destruct (abort opts), (response opts).
Qed.

(** ** Success *)

(** C7. When the body can be read and the decoder accepts it, the handler
    leaves a body from which later handlers read the bytes of the
    original body, stores the decoded target under the configured key
    (and touches no other key), and neither aborts the chain nor writes a
    response or an error. *)
Theorem bind_success_restores_body_and_stores_target ctx (target v : Any)
    (opts : bindOpts) (body : bytes) (n : nat) :
  buffered ctx = Some body ->
  ShouldBind (Req (replayed ctx)) target = (n, v, None) ->
  let ctx' := bindHandler ShouldBind ctx target opts in
  body_read ctx' = body_read ctx /\
  (forall rd, Body (Req ctx) = Some rd -> Body (Req ctx') = Some (NewReader body)) /\
  Get (key opts) ctx' = Some v /\
  (forall k, k <> key opts -> Get k ctx' = Get k ctx) /\
  Aborted ctx' = Aborted ctx /\
  Errors ctx' = Errors ctx /\
  Written ctx' = Written ctx.
Proof.
  intros Hbuf Hdec. cbn zeta.
  rewrite (bindHandler_buffered _ _ _ _ Hbuf).
  unfold bind_decode. rewrite Hdec.
  unfold buffered in Hbuf. unfold body_read, replayed, consumed, Get.
  destruct (Body (Req ctx)) as [rd|] eqn:Hb; cbn.
  - destruct (fault rd) eqn:Hf; [done|]. injection Hbuf as <-.
    cbn. repeat split; try done.
    + apply lookup_insert_eq.
    + intros k Hk. by rewrite lookup_insert_ne.
  - rewrite ?Hb. cbn. rewrite ?Hb. cbn. repeat split; try done.
    + apply lookup_insert_eq.
    + intros k Hk. by rewrite lookup_insert_ne.
Qed.

(** ** Requests without a body *)

(** C8, as amended. For a request without a body, the handler goes
    straight to the decoder.  When the decoder fails, nothing is stored
    under any key; and under the silent policy (neither abort nor
    response selected) the context is left as it was: no abort, no
    response, no error recorded, still no body. *)
Theorem no_body_failure_stores_nothing ctx (target v : Any) (opts : bindOpts)
    (n : nat) (err : error) :
  Body (Req ctx) = None ->
  ShouldBind (Req ctx) target = (n, v, Some err) ->
  Keys (bindHandler ShouldBind ctx target opts) = Keys ctx /\
  (policy opts = PolicySilent -> bindHandler ShouldBind ctx target opts = ctx).
Proof.
  intros Hb Hdec.
  assert (Hc : consumed n ctx = ctx).
  { unfold consumed. rewrite Hb. cbn. rewrite <- Hb. apply set_Body_same. }
  unfold bindHandler. rewrite Hb.
  rewrite (bind_decode_failure _ _ _ _ _ _ _ Hdec), Hc.
  split.
  - destruct (policy opts); [done| |done].
    destruct (errors_As_ValidationErrors err) as [vErr|];
      [destruct (detail opts)|];
      first [ apply (proj1 (proj2 (GinSpec.AbortWithStatusJSON_frame _ _ _)))
            | apply (proj1 (proj2 (GinSpec.AbortWithStatus_frame _ _))) ].
  - by intros ->.
Qed.

(** ** Construction *)

(** C6. [To] panics, and so returns no handler, whenever its argument is
    not struct-shaped (the nil interface included); for a struct-shaped
    argument it returns the handler that binds into a fresh value of the
    argument's type, with the options fixed at construction. *)
Theorem To_panics_unless_struct_shaped (d : Defaults) (s : option Any)
    (opts : list BindOpts) :
  (struct_shaped TypeOf s = false ->
     exists msg, To TypeOf New ShouldBind d s opts = Panics msg) /\
  (struct_shaped TypeOf s = true ->
     exists v, s = Some v /\
       To TypeOf New ShouldBind d s opts
       = Returns (fun ctx =>
           bindHandler ShouldBind ctx (New (TypeOf v)) (getBindOpts d opts))).
Proof.
  unfold struct_shaped, To. destruct s as [v|]; cbn.
  - destruct (decide (TypeKind (TypeOf v) ≠ Struct)) as [Hne|He].
    + rewrite bool_decide_eq_false_2 by done. split; [eauto|done].
    + apply dec_stable in He. rewrite bool_decide_eq_true_2 by done.
      split; [done|]. intros _. by exists v.
  - split; [eauto|done].
Qed.

(** ** Option precedence *)

(** C3, as amended. Of the keys and of the status codes a list of
    mutators sets, the last one is kept; the abort, response and detail
    flags are only ever switched on, so a flag is on when the defaults or
    any mutator of the list switched it on, whatever the order; and when
    abort is on a decoding error is handled by the abort branch (body
    restored to the buffer, chain aborted, error attached, nothing
    written), also when a response option comes later in the list. *)
Theorem option_precedence (d : Defaults) (l : list Option_) :
  let bo := getBindOpts d (mutator <$> l) in
  key bo = default (defaultKey d) (last_key l) /\
  code bo = default (defaultCode d) (last_code l) /\
  abort bo = defaultAbort d || existsb sets_abort l /\
  response bo = defaultResponse d || existsb sets_response l /\
  detail bo = defaultDetail d || existsb sets_detail l /\
  (existsb sets_abort l = true ->
     policy bo = PolicyAbort /\
     forall ctx (target v : Any) (body : bytes) (n : nat) (err : error),
       buffered ctx = Some body ->
       ShouldBind (Req (replayed ctx)) target = (n, v, Some err) ->
       bindHandler ShouldBind ctx target bo
       = Error err (Abort (set_Body (Some (NewReader body))
                             (consumed n (replayed ctx))))).
Proof.
  cbn zeta. destruct (getBindOpts_fields d l) as (Hk & Hc & Ha & Hr & Hd).
  repeat split; try done.
  - unfold policy. by rewrite Ha, H, orb_true_r.
  - intros ctx target v body n err Hbuf Hdec.
    rewrite (bindHandler_buffered _ _ _ _ Hbuf).
    rewrite (bind_decode_failure _ _ _ _ _ _ _ Hdec).
    unfold policy. by rewrite Ha, H, orb_true_r.
Qed.

(** ** Mutators that imply a response *)

(** C10, as amended. [WithResponseCode c] switches the response flag on
    and sets the status code to [c]; [WithResponseDetail] switches the
    response flag and the detail flag on; neither touches another field.
    The policy the resulting options select is respond when abort is off
    and abort when abort is on.  So with either as the only option, and
    abort off by default, a decoding error is handled by the respond
    branch: the handler ends in [AbortWithStatusJSON] or
    [AbortWithStatus] with the code [c], respectively with the default
    code. *)
Theorem response_mutators_select_respond (d : Defaults) (c : Z) :
  (forall bo,
     response (WithResponseCode c bo) = true /\
     code (WithResponseCode c bo) = c /\
     key (WithResponseCode c bo) = key bo /\
     abort (WithResponseCode c bo) = abort bo /\
     detail (WithResponseCode c bo) = detail bo) /\
  (forall bo,
     response (WithResponseDetail bo) = true /\
     detail (WithResponseDetail bo) = true /\
     key (WithResponseDetail bo) = key bo /\
     abort (WithResponseDetail bo) = abort bo /\
     code (WithResponseDetail bo) = code bo) /\
  (forall bo,
     policy (WithResponseCode c bo)
     = (if abort bo then PolicyAbort else PolicyRespond) /\
     policy (WithResponseDetail bo)
     = (if abort bo then PolicyAbort else PolicyRespond)) /\
  policy (getBindOpts d [WithResponseCode c])
  = (if defaultAbort d then PolicyAbort else PolicyRespond) /\
  policy (getBindOpts d [WithResponseDetail])
  = (if defaultAbort d then PolicyAbort else PolicyRespond) /\
  (defaultAbort d = false ->
     forall ctx (target v : Any) (body : bytes) (n : nat) (err : error),
       buffered ctx = Some body ->
       ShouldBind (Req (replayed ctx)) target = (n, v, Some err) ->
       bindHandler ShouldBind ctx target (getBindOpts d [WithResponseCode c])
       = match errors_As_ValidationErrors err, defaultDetail d with
         | Some vErr, true =>
             AbortWithStatusJSON c (validation_body vErr)
               (consumed n (replayed ctx))
         | _, _ => AbortWithStatus c (consumed n (replayed ctx))
         end /\
       bindHandler ShouldBind ctx target (getBindOpts d [WithResponseDetail])
       = match errors_As_ValidationErrors err with
         | Some vErr =>
             AbortWithStatusJSON (defaultCode d) (validation_body vErr)
               (consumed n (replayed ctx))
         | None => AbortWithStatus (defaultCode d) (consumed n (replayed ctx))
         end).
Proof.
  split; [done|]. split; [done|].
  split; [intros bo; unfold policy; cbn; by destruct (abort bo)|].
  split; [unfold policy; cbn; by destruct (defaultAbort d)|].
  split; [unfold policy; cbn; by destruct (defaultAbort d)|].
  intros Ha ctx target v body n err Hbuf Hdec. split.
  - rewrite (bindHandler_buffered _ _ _ _ Hbuf).
    rewrite (bind_decode_failure _ _ _ _ _ _ _ Hdec).
    unfold policy. cbn. by rewrite Ha.
  - rewrite (bindHandler_buffered _ _ _ _ Hbuf).
    rewrite (bind_decode_failure _ _ _ _ _ _ _ Hdec).
    unfold policy. cbn. rewrite Ha.
    by destruct (errors_As_ValidationErrors err).
Qed.

End Decoder.

(** ** The handler on sample requests *)

Section Failure.
Context {Any : Type}.
Variable ShouldBind : Request -> Any -> nat * Any * option error.

(** Under the respond policy an error that is not a validation error is
    answered through [AbortWithStatus], the status alone, whatever the
    detail flag. *)
Lemma respond_other_error_status_only (ctx : Gin.Context Any) (target v : Any)
    (opts : bindOpts) (body : bytes) (n : nat) (err : error) :
  buffered ctx = Some body ->
  ShouldBind (Req (replayed ctx)) target = (n, v, Some err) ->
  policy opts = PolicyRespond ->
  errors_As_ValidationErrors err = None ->
  bindHandler ShouldBind ctx target opts
  = AbortWithStatus (code opts) (consumed n (replayed ctx)).
Proof.
  intros Hbuf Hdec Hp Has.
  rewrite (bindHandler_buffered _ _ _ _ _ Hbuf).
  by rewrite (bind_decode_failure _ _ _ _ _ _ _ _ Hdec), Hp, Has.
Qed.

(** Under the silent policy a decoding error leaves the body where the
    decoder stopped reading. *)
Lemma silent_failure_body (ctx : Gin.Context Any) (target v : Any)
    (opts : bindOpts) (body : bytes) (n : nat) (err : error) :
  buffered ctx = Some body ->
  ShouldBind (Req (replayed ctx)) target = (n, v, Some err) ->
  policy opts = PolicySilent ->
  body_read (bindHandler ShouldBind ctx target opts)
  = (fun _ => (drop n body, None)) <$> Body (Req ctx).
Proof.
  intros Hbuf Hdec Hp.
  rewrite (bindHandler_buffered _ _ _ _ _ Hbuf).
  rewrite (bind_decode_failure _ _ _ _ _ _ _ _ Hdec), Hp.
  unfold buffered in Hbuf. unfold body_read, consumed, replayed.
  destruct (Body (Req ctx)) as [rd|] eqn:Hb; cbn; rewrite ?Hb; cbn; [|done].
  destruct (fault rd); [done|]. by injection Hbuf as <-.
Qed.

End Failure.

(** C1. On the malformed document, with [WithResponseDetail] as the only
    option, the decoder's error is not a validation error and the handler
    answers with status 400 and no body at all: the chain is aborted, the
    one response written carries no JSON. *)
Theorem respond_detail_on_malformed_document_writes_status_only :
  let opts := getBindOpts initial_defaults [WithResponseDetail] in
  let ctx' := bindHandler Sample.ShouldBind Sample.ctx_malformed
                (Sample.New (Sample.TypeOf Sample.TestingBody)) opts in
  response opts = true /\ detail opts = true /\ abort opts = false /\
  Aborted ctx' = true /\
  Written ctx' = [WroteStatus 400] /\
  body_of <$> Written ctx' = [None].
Proof. vm_compute. by repeat split. Qed.

(** C2. On the malformed document, with no option (the silent policy),
    nothing is stored and the chain goes on, but the body is left as the
    decoder drained it: a later handler reads no byte of the original
    document. *)
Theorem silent_failure_leaves_body_drained :
  let opts := getBindOpts initial_defaults [] in
  let ctx' := bindHandler Sample.ShouldBind Sample.ctx_malformed
                (Sample.New (Sample.TypeOf Sample.TestingBody)) opts in
  policy opts = PolicySilent /\
  body_read Sample.ctx_malformed = Some (Sample.malformed, None) /\
  body_read ctx' = Some ([], None) /\
  Keys ctx' = ∅ /\ Aborted ctx' = false /\ Written ctx' = [] /\ Errors ctx' = [].
Proof. vm_compute. by repeat split. Qed.

(** C3, the claim as stated fails: with [WithAbort] first and
    [WithResponse] last, "last one wins" announces the respond policy,
    but the options select abort, and on the malformed document the
    handler attaches the error and writes no response. *)
Lemma abort_then_response_applies_abort :
  let opts := getBindOpts initial_defaults (mutator <$> [OAbort; OResponse]) in
  let ctx' := bindHandler Sample.ShouldBind Sample.ctx_malformed
                (Sample.New (Sample.TypeOf Sample.TestingBody)) opts in
  last_wins initial_defaults [OAbort; OResponse] = PolicyRespond /\
  policy opts = PolicyAbort /\
  Aborted ctx' = true /\
  Written ctx' = [] /\
  Errors ctx' = [ErrorString 3 "unexpected EOF"].
Proof. vm_compute. by repeat split. Qed.

(** C3, amended: the statement at the options [WithKey "a"], [WithAbort],
    [WithKey "b"], [WithResponseCode 403] and the malformed document. *)
Lemma option_precedence_witness :
  let l := [OKey "a"; OAbort; OKey "b"; OResponseCode 403] in
  let bo := getBindOpts initial_defaults (mutator <$> l) in
  key bo = "b" /\ code bo = 403%Z /\ policy bo = PolicyAbort /\
  Errors (bindHandler Sample.ShouldBind Sample.ctx_malformed
            (Sample.New (Sample.TypeOf Sample.TestingBody)) bo)
  = [ErrorString 3 "unexpected EOF"].
Proof.
  cbn zeta.
  destruct (option_precedence (Any := Sample.value) Sample.ShouldBind initial_defaults
              [OKey "a"; OAbort; OKey "b"; OResponseCode 403])
    as (Hk & Hc & _ & _ & _ & Hp).
  destruct (Hp eq_refl) as [Hpol Hrun].
  split; [exact Hk|]. split; [exact Hc|]. split; [exact Hpol|].
  rewrite (Hrun Sample.ctx_malformed _
             (Sample.New (Sample.TypeOf Sample.TestingBody))
             Sample.malformed (length Sample.malformed)
             (ErrorString 3 "unexpected EOF") eq_refl eq_refl).
  reflexivity.
Defined.

(** C6: [To(&TestingBody{})] panics and [To(TestingBody{})] returns a
    handler. *)
Lemma To_witness :
  (exists msg,
     To Sample.TypeOf Sample.New Sample.ShouldBind initial_defaults
       (Some (Sample.VPtr Sample.TestingBody)) [] = Panics msg) /\
  (exists v, Some Sample.TestingBody = Some v /\
     To Sample.TypeOf Sample.New Sample.ShouldBind initial_defaults
       (Some Sample.TestingBody) []
     = Returns (fun ctx =>
         bindHandler Sample.ShouldBind ctx (Sample.New (Sample.TypeOf v))
           (getBindOpts initial_defaults []))).
Proof.
  split.
  - apply (To_panics_unless_struct_shaped Sample.TypeOf Sample.New
             Sample.ShouldBind initial_defaults
             (Some (Sample.VPtr Sample.TestingBody)) []).
    reflexivity.
  - apply (To_panics_unless_struct_shaped Sample.TypeOf Sample.New
             Sample.ShouldBind initial_defaults (Some Sample.TestingBody) []).
    reflexivity.
Defined.

(** C7: the statement on the well-formed document, bound under the
    default key. *)
Lemma bind_success_witness :
  let opts := getBindOpts initial_defaults [] in
  let ctx' := bindHandler Sample.ShouldBind Sample.ctx_wellformed
                (Sample.New (Sample.TypeOf Sample.TestingBody)) opts in
  body_read ctx' = body_read Sample.ctx_wellformed /\
  (forall rd, Body (Req Sample.ctx_wellformed) = Some rd ->
     Body (Req ctx') = Some (NewReader Sample.wellformed)) /\
  Get (key opts) ctx'
    = Some (Sample.VPtr (Sample.VStruct "TestingBody" Sample.wellformed)) /\
  (forall k, k <> key opts -> Get k ctx' = Get k Sample.ctx_wellformed) /\
  Aborted ctx' = Aborted Sample.ctx_wellformed /\
  Errors ctx' = Errors Sample.ctx_wellformed /\
  Written ctx' = Written Sample.ctx_wellformed.
Proof.
  exact (bind_success_restores_body_and_stores_target Sample.ShouldBind
           Sample.ctx_wellformed
           (Sample.New (Sample.TypeOf Sample.TestingBody))
           (Sample.VPtr (Sample.VStruct "TestingBody" Sample.wellformed))
           (getBindOpts initial_defaults []) Sample.wellformed
           (length Sample.wellformed) eq_refl eq_refl).
Defined.

(** C8, the claim as stated fails: on a POST request without a body,
    with [WithResponse], the decoder's error aborts the chain with status
    400, as in [TestBindEmptyResponse]; and on a GET request, which has no
    body either, the target decoded from the query string is stored under
    the key. *)
Lemma no_body_is_not_always_silent :
  Body (Req Sample.ctx_empty) = None /\
  (let ctx' := bindHandler Sample.ShouldBind Sample.ctx_empty
                 (Sample.New (Sample.TypeOf Sample.TestingBody))
                 (getBindOpts initial_defaults [WithResponse]) in
   Aborted ctx' = true /\ Written ctx' = [WroteStatus 400]) /\
  Body (Req Sample.ctx_query) = None /\
  (let ctx' := bindHandler Sample.ShouldBind Sample.ctx_query
                 (Sample.New (Sample.TypeOf Sample.TestingBody))
                 (getBindOpts initial_defaults []) in
   Get "body" ctx'
   = Some (Sample.VPtr (Sample.VStruct "TestingBody" (bytes_of "limit=20")))).
Proof. vm_compute. by repeat split. Qed.

(** C8, amended: the statement on the request without a body, with no
    option. *)
Lemma no_body_failure_witness :
  Keys (bindHandler Sample.ShouldBind Sample.ctx_empty
          (Sample.New (Sample.TypeOf Sample.TestingBody))
          (getBindOpts initial_defaults [])) = Keys Sample.ctx_empty /\
  (policy (getBindOpts initial_defaults []) = PolicySilent ->
   bindHandler Sample.ShouldBind Sample.ctx_empty
     (Sample.New (Sample.TypeOf Sample.TestingBody))
     (getBindOpts initial_defaults []) = Sample.ctx_empty).
Proof.
  exact (no_body_failure_stores_nothing Sample.ShouldBind Sample.ctx_empty
           (Sample.New (Sample.TypeOf Sample.TestingBody))
           (Sample.New (Sample.TypeOf Sample.TestingBody))
           (getBindOpts initial_defaults []) 0%nat
           (ErrorString 2 "invalid request") eq_refl eq_refl).
Defined.

(** C10, the claim as stated fails: after [SetDefaultAbort(true)],
    [WithResponseCode] or [WithResponseDetail] alone gives options with
    the response flag on that select the abort policy, and on the
    malformed document the handler attaches the error and writes no
    response. *)
Lemma response_mutator_under_default_abort :
  let d := SetDefaultAbort true initial_defaults in
  let ctx' := bindHandler Sample.ShouldBind Sample.ctx_malformed
                (Sample.New (Sample.TypeOf Sample.TestingBody))
                (getBindOpts d [WithResponseCode 403]) in
  response (getBindOpts d [WithResponseCode 403]) = true /\
  policy (getBindOpts d [WithResponseCode 403]) = PolicyAbort /\
  policy (getBindOpts d [WithResponseDetail]) = PolicyAbort /\
  Written ctx' = [] /\
  Errors ctx' = [ErrorString 3 "unexpected EOF"].
Proof. vm_compute. by repeat split. Qed.

(** C10, amended: the statement for status 403 on the request without a
    body, as in [TestBindResponseCode]. *)
Lemma response_mutators_witness :
  policy (getBindOpts initial_defaults [WithResponseCode 403]) = PolicyRespond /\
  policy (getBindOpts initial_defaults [WithResponseDetail]) = PolicyRespond /\
  Written (bindHandler Sample.ShouldBind Sample.ctx_empty
             (Sample.New (Sample.TypeOf Sample.TestingBody))
             (getBindOpts initial_defaults [WithResponseCode 403]))
  = [WroteStatus 403].
Proof.
  destruct (response_mutators_select_respond (Any := Sample.value)
              Sample.ShouldBind initial_defaults 403)
    as (_ & _ & _ & Hp1 & Hp2 & Hrun).
  split; [exact Hp1|]. split; [exact Hp2|].
  destruct (Hrun eq_refl Sample.ctx_empty
              (Sample.New (Sample.TypeOf Sample.TestingBody))
              (Sample.New (Sample.TypeOf Sample.TestingBody))
              [] 0%nat (ErrorString 2 "invalid request") eq_refl eq_refl)
    as [-> _].
  reflexivity.
Defined.

End BindSpec.

(* ===================================================================== *)
(** * Properties of package errors *)
(* ===================================================================== *)

Module ErrorsSpec.
Import Go Gin Errors.

Lemma errors_Is_ErrNoDetail : errors_Is ErrNoDetail ErrNoDetail = true.
Proof. reflexivity. Qed.

(** An error that wraps the sentinel is the sentinel for [errors.Is]. *)
Lemma errors_Is_wrapped (a : positive) (text : string) (inner : error) :
  errors_Is inner ErrNoDetail = true ->
  errors_Is (WrapError a text inner) ErrNoDetail = true.
Proof. intros H. cbn. by rewrite H. Qed.

(** Lookups in a map built by insertions under distinct keys. *)
Ltac map_lookup :=
  repeat first
    [ rewrite lookup_insert_eq
    | rewrite lookup_insert_ne by done
    | rewrite lookup_empty ].

Section Helper.
Context {Any : Type}.
Variable IsThisError : error -> json.

(** C4, as amended. For a status in 100..999 (net/http accepts no
    other), [AbortWithError] returns true exactly when the error is not
    nil, and for a nil error leaves the context as it was.  For an error
    that is not nil the chain is aborted and the call ends in
    [AbortWithStatusJSON] with the given status and a body that has the
    field "code" with the given code, has a field "error" (the
    description of the error) exactly when the detail flag is on and the
    error is not, in the sense of [errors.Is], the sentinel
    [ErrNoDetail], and has no other field.  On a response not written to
    before, that body goes out with the given status when the status
    allows a body; for 1xx, 204 and 304 the status goes out and no
    body. *)
Theorem AbortWithError_contract (detail : bool) (ctx : Context Any)
    (err : option error) (status : Z) (code : string) :
  (100 <= status <= 999)%Z ->
  let r := AbortWithError IsThisError detail ctx err status code in
  (r.2 = true <-> err <> None) /\
  (err = None -> r = (ctx, false)) /\
  (forall e, err = Some e ->
     Aborted r.1 = true /\
     exists body,
       r = (AbortWithStatusJSON status body ctx, true) /\
       body !! "code" = Some (JString code) /\
       (is_Some (body !! "error") <->
          detail = true /\ errors_Is e ErrNoDetail = false) /\
       (forall v, body !! "error" = Some v -> v = IsThisError e) /\
       (forall k, k <> "code" -> k <> "error" -> body !! k = None) /\
       (Written ctx = [] ->
        Written r.1 = if bodyAllowedForStatus status
                      then [WroteJSON status body]
                      else [WroteStatus status])).
Proof.
  intros Hst. cbn zeta. destruct err as [e|]; cbn.
  - split; [done|]. split; [done|]. intros e' [= <-].
    split; [apply GinSpec.AbortWithStatusJSON_frame|].
    eexists. split; [reflexivity|].
    destruct detail, (errors_Is e ErrNoDetail); cbn;
      (split; [by map_lookup|]);
      (split; [map_lookup; rewrite is_Some_alt; intuition congruence|]);
      (split; [intros v; map_lookup; congruence|]);
      (split; [intros k ? ?; by map_lookup|]);
      (intros Hw; apply GinSpec.AbortWithStatusJSON_fresh; [done|lia]).
  - split; [|done]. split; [done|]. by intros [].
Qed.

(** [AbortWith] always aborts, and its body is the code alone. *)
Lemma AbortWith_body (detail : bool) (ctx : Context Any) (status : Z)
    (code : string) :
  AbortWith IsThisError detail ctx status code
  = (AbortWithStatusJSON status (<["code" := JString code]> ∅) ctx, true).
Proof. unfold AbortWith, AbortWithError. cbn. by rewrite andb_false_r. Qed.

End Helper.

(** C4, the claim as stated fails: with status 204 and an error that is
    not nil the call returns true and the chain is aborted, but no JSON
    body is written: the status goes out alone. *)
Lemma AbortWithError_204_writes_no_body :
  let r := AbortWithError Sample.describe true (new_Context (Sample.post None))
             (Some Sample.not_found) 204 "not_found" in
  r.2 = true /\ Aborted r.1 = true /\
  Written (Any := Sample.value) r.1 = [WroteStatus 204] /\
  body_of <$> Written r.1 = [None].
Proof. vm_compute. by repeat split. Qed.

(** C4, amended: the statement with detail on, status 404 and an error
    of the application, on a fresh context. *)
Lemma AbortWithError_witness :
  let r := AbortWithError Sample.describe true (new_Context (Sample.post None))
             (Some Sample.not_found) 404 "not_found" in
  r.2 = true /\ Aborted r.1 = true /\
  exists body,
    Written (Any := Sample.value) r.1 = [WroteJSON 404 body] /\
    body !! "code" = Some (JString "not_found") /\
    body !! "error" = Some (JString "record not found").
Proof.
  destruct (AbortWithError_contract (Any := Sample.value) Sample.describe true
              (new_Context (Sample.post None)) (Some Sample.not_found)
              404 "not_found" ltac:(lia))
    as (Hret & _ & Hsome).
  destruct (Hsome Sample.not_found eq_refl)
    as (Ha & body & _ & Hcode & Hiff & Herr & _ & Hw).
  split; [by apply Hret|]. split; [exact Ha|].
  exists body. split; [exact (Hw eq_refl)|]. split; [exact Hcode|].
  destruct (proj2 Hiff (conj eq_refl eq_refl)) as [v Hv].
  by rewrite Hv, (Herr v Hv).
Defined.

End ErrorsSpec.

(* ===================================================================== *)
(** * Properties of package zlog *)
(* ===================================================================== *)

Module ZlogSpec.
Import Go Zlog.

#[local] Arguments Logger_request : simpl never.
#[local] Arguments Logger_response : simpl never.
#[local] Arguments Header : simpl never.

(** ** Request identifiers *)

Example RawURLEncoding_Man : RawURLEncoding (bytes_of "Man") = "TWFu".
Proof. reflexivity. Qed.

Example RawURLEncoding_Ma : RawURLEncoding (bytes_of "Ma") = "TWE".
Proof. reflexivity. Qed.

Example RawURLEncoding_M : RawURLEncoding (bytes_of "M") = "TQ".
Proof. reflexivity. Qed.

Example RawURLEncoding_tail : RawURLEncoding [Byte.xff; Byte.xfe; Byte.xfb] = "__77".
Proof. reflexivity. Qed.

(** When [crypto/rand] yields nothing the identifier is that of eight
    zero bytes. *)
Example requestID_without_entropy (c : World) :
  rand c = [] -> requestID c = "AAAAAAAAAAA".
Proof. unfold requestID, ReadFull. by intros ->. Qed.

Example requestID_world : requestID Sample.world = "MTIzNDU2Nzg".
Proof. reflexivity. Qed.

(** ** zerolog events *)

Lemma WithLevel_writes (global : Level) (l : ZLogger) (lvl : Level) :
  WithLevel global l lvl
  = if writes global (level l) lvl
    then Some {| ev_level := lvl; ev_fields := context l |}
    else None.
Proof.
  unfold WithLevel, writes, should. rewrite !Z.ltb_antisym.
  destruct lvl; cbn; try done;
    repeat match goal with
           | |- context [(?a <=? ?b)%Z] => destruct (a <=? b)%Z
           end; done.
Qed.

Lemma fires_WithLevel (global : Level) (l : ZLogger) (lvl : Level) :
  fires (WithLevel global l lvl) = writes global (level l) lvl.
Proof. rewrite WithLevel_writes. by destruct (writes _ _ _). Qed.

Lemma fires_add_field (k : string) (v : Value) (e : option Event) :
  fires (add_field k v e) = fires e.
Proof. by destruct e. Qed.

Lemma length_records (msg : Message) (e : option Event) :
  length (records msg e) = if fires e then 1%nat else 0%nat.
Proof. by destruct e. Qed.

Lemma extends_WithLevel (global : Level) (l : ZLogger) (lvl : Level) :
  extends lvl (context l) (WithLevel global l lvl).
Proof.
  rewrite WithLevel_writes. intros e'. destruct (writes _ _ _); [|done].
  intros [= <-]. split; [done|]. exists []. by rewrite app_nil_r.
Qed.

Lemma extends_add_field (lvl : Level) (fs : Fields) (k : string) (v : Value)
    (e : option Event) :
  extends lvl fs e -> extends lvl fs (add_field k v e).
Proof.
  intros H e'. destruct e as [e|]; [|done]. cbn. intros [= <-]. cbn.
  destruct (H e eq_refl) as [? [more ->]]. split; [done|].
  exists (more ++ [(k, v)]). by rewrite app_assoc.
Qed.

Lemma extends_records (lvl : Level) (fs : Fields) (msg : Message)
    (e : option Event) (r : Record_) :
  extends lvl fs e -> r ∈ records msg e ->
  rec_level r = lvl /\ exists more, rec_fields r = fs ++ more.
Proof.
  intros H. destruct e as [e|]; cbn; [|by intros ?%elem_of_nil].
  intros ->%list_elem_of_singleton. cbn. by apply H.
Qed.

(** ** The two halves of [Logger] *)

Lemma out_set_out (o : list Record_) (c : World) : out (set_out o c) = o.
Proof. done. Qed.

Lemma Msg_out (msg : Message) (e : option Event) (c : World) :
  out (Msg msg e c) = out c ++ records msg e.
Proof. destruct e; cbn; [done|]. by rewrite app_nil_r. Qed.

(** [Msg] changes the log and nothing else. *)
Lemma Msg_frame (msg : Message) (e : option Event) (c : World) :
  Msg msg e c = set_out (out c ++ records msg e) c.
Proof. destruct e; cbn; [done|]. rewrite app_nil_r. by destruct c. Qed.

(** [c.Header] changes the response headers and nothing else. *)
Lemma Header_frame (k v : string) (c : World) :
  exists h, Header k v c = set_RespHeader h c.
Proof. unfold Header. case_decide; eauto. Qed.

Lemma Logger_request_frame (lvl : Level) (c : World) :
  globals (Logger_request lvl c) = globals c /\
  Aborted (Logger_request lvl c) = Aborted c /\
  clock (Logger_request lvl c) = clock c /\
  stored (Logger_request lvl c)
  = Some (Logger_Level lvl (With_Str "id" (requestID c) (log_Logger (globals c)))).
Proof.
  unfold Logger_request, requestID, ReadFull.
  cbn -[Header RawURLEncoding take drop replicate].
  match goal with
  | |- context [Header ?k ?v ?c'] => destruct (Header_frame k v c') as [h ->]
  end.
  by rewrite Msg_frame.
Qed.

Lemma Logger_request_out (lvl : Level) (c : World) :
  exists msg e,
    out (Logger_request lvl c) = out c ++ records msg e /\
    fires e = writes (GlobalLevel (globals c)) lvl (globalRequestLevel (globals c)) /\
    extends (globalRequestLevel (globals c))
      (context (log_Logger (globals c)) ++ [("id", VStr (requestID c))]) e.
Proof.
  unfold Logger_request, requestID, ReadFull.
  cbn -[Header RawURLEncoding take drop replicate].
  match goal with
  | |- context [Header ?k ?v ?c'] => destruct (Header_frame k v c') as [h ->]
  end.
  eexists _, _. rewrite Msg_out. split; [reflexivity|]. cbn. unfold Str.
  rewrite !fires_add_field, fires_WithLevel. split; [done|].
  repeat apply extends_add_field. apply extends_WithLevel.
Qed.

Lemma Logger_response_frame (start : Z) (c : World) :
  exists msg e,
    Logger_response start c = set_out (out c ++ records msg e) c /\
    fires e = writes (GlobalLevel (globals c)) (level (GetLogger c))
                (globalResponseLevel (globals c)) /\
    extends (globalResponseLevel (globals c)) (context (GetLogger c)) e.
Proof.
  unfold Logger_response. eexists _, _. rewrite Msg_frame.
  split; [reflexivity|]. unfold Dur, Int_, Str.
  rewrite !fires_add_field, fires_WithLevel. split; [done|].
  repeat apply extends_add_field. apply extends_WithLevel.
Qed.

(** ** Chains *)

Lemma Next_aborted (hs : list Handler) (c : World) :
  Aborted c = true -> Next hs c = c.
Proof. intros H. destruct hs; cbn; [done|]. by rewrite H. Qed.

(** The response writer changes the status and the size and nothing
    else. *)
Lemma set_writer_same (c : World) : set_writer (Status c) (Size c) c = c.
Proof. by destruct c. Qed.

Lemma Status_frame (code : Z) (c : World) :
  exists s z, Status_ code c = set_writer s z c.
Proof.
  unfold Status_. case_match; [by eexists _, _|].
  exists (Status c), (Size c). by rewrite set_writer_same.
Qed.

Lemma WriteHeaderNow_frame (c : World) :
  exists s z, WriteHeaderNow c = set_writer s z c.
Proof.
  unfold WriteHeaderNow. case_match; [|by eexists _, _].
  exists (Status c), (Size c). by rewrite set_writer_same.
Qed.

Lemma Write_frame (n : Z) (c : World) :
  exists s z, Write_ n c = set_writer s z c.
Proof.
  unfold Write_. destruct (WriteHeaderNow_frame c) as (s & z & ->).
  by eexists _, _.
Qed.

Lemma writeContentType_frame (value : string) (c : World) :
  exists h, writeContentType value c = set_RespHeader h c /\
            h !! "X-Request-ID" = RespHeader c !! "X-Request-ID".
Proof.
  unfold writeContentType. destruct (RespHeader c !! "Content-Type").
  - exists (RespHeader c). split; [by destruct c|done].
  - eexists. split; [reflexivity|]. by rewrite lookup_insert_ne.
Qed.

Lemma act_frame (a : Action) (c : World) :
  globals (act a c) = globals c /\
  (exists d, out (act a c) = out c ++ d) /\
  (match a with AWithLogger _ => False | _ => True end ->
   stored (act a c) = stored c).
Proof.
  assert (Hnil : forall o : list Record_, exists d, o = o ++ d)
    by (intros o; exists []; by rewrite app_nil_r).
  destruct a as [lvl msg|code|code text|l|d]; cbn.
  - rewrite Msg_frame. cbn. eauto.
  - destruct (Status_frame code c) as (s & z & ->).
    destruct (WriteHeaderNow_frame (set_writer s z c)) as (s' & z' & ->).
    cbn. eauto.
  - destruct (Status_frame code c) as (s & z & ->).
    destruct (writeContentType_frame plainContentType (set_writer s z c))
      as (h & -> & _).
    destruct (Write_frame (Z.of_nat (String.length text))
                (set_RespHeader h (set_writer s z c))) as (s1 & z1 & ->).
    destruct (WriteHeaderNow_frame (set_RespHeader h (set_writer s z c)))
      as (s2 & z2 & ->).
    destruct (bodyAllowedForStatus code); cbn; eauto.
  - split; [done|]. split; [eauto|done].
  - eauto.
Qed.

Lemma body_frame (body : list Action) (c : World) :
  let c' := foldl (fun c a => act a c) c body in
  globals c' = globals c /\
  (exists d, out c' = out c ++ d) /\
  (forallb (fun a => match a with AWithLogger _ => false | _ => true end) body = true ->
   stored c' = stored c).
Proof.
  revert c. induction body as [|a body IH]; intros c; cbn.
  - split; [done|]. split; [|done]. exists []. by rewrite app_nil_r.
  - destruct (IH (act a c)) as (Hg & [d Hd] & Hs).
    destruct (act_frame a c) as (Hg' & [d' Hd'] & Hs').
    split; [congruence|]. split.
    + exists (d' ++ d). by rewrite Hd, Hd', app_assoc.
    + intros [Ha Hb]%andb_prop. rewrite (Hs Hb). apply Hs'. by destruct a.
Qed.

Lemma SetLevel_frame (lvl : Level) (c : World) :
  SetLevel lvl c = set_stored (Some (Logger_Level lvl (GetLogger c))) c.
Proof. done. Qed.

Lemma Next_frame (hs : list Handler) (c : World) :
  globals (Next hs c) = globals c /\ exists d, out (Next hs c) = out c ++ d.
Proof.
  revert c. induction hs as [|h hs IH]; intros c; cbn.
  - split; [done|]. exists []. by rewrite app_nil_r.
  - destruct (Aborted c); [split; [done|]; exists []; by rewrite app_nil_r|].
    destruct h as [lvl|lvl|body].
    + unfold Logger.
      destruct (Logger_request_frame lvl c) as (Hg & _).
      destruct (Logger_request_out lvl c) as (m1 & e1 & Ho1 & _).
      destruct (IH (Logger_request lvl c)) as [Hg2 [d Hd]].
      destruct (Logger_response_frame (clock c) (Next hs (Logger_request lvl c)))
        as (m2 & e2 & -> & _).
      unfold set_out; cbn. split; [congruence|].
      exists (records m1 e1 ++ d ++ records m2 e2).
      by rewrite Hd, Ho1, !app_assoc.
    + destruct (IH (SetLevel lvl c)) as [Hg [d Hd]]. split; [done|]. by exists d.
    + destruct (IH (foldl (fun c a => act a c) c body)) as [Hg [d Hd]].
      destruct (body_frame body c) as (Hg' & [d' Hd'] & _).
      split; [congruence|]. exists (d' ++ d). by rewrite Hd, Hd', app_assoc.
Qed.

(** Handlers before the response is logged run in order. *)
Lemma Next_app (pre rest : list Handler) (c : World) :
  forallb not_Logger pre = true ->
  Next (pre ++ rest) c = Next rest (Next pre c).
Proof.
  revert c. induction pre as [|h pre IH]; intros c; cbn; [done|].
  intros [Hh Hpre]%andb_prop.
  destruct (Aborted c) eqn:Ha; [by rewrite Next_aborted|].
  destruct h; [done| |]; by apply IH.
Qed.

(** Handlers that keep the logger keep the fields of its context. *)
Lemma Next_keeps_context (hs : list Handler) (c : World) :
  forallb keeps_logger hs = true ->
  context (GetLogger (Next hs c)) = context (GetLogger c).
Proof.
  revert c. induction hs as [|h hs IH]; intros c; cbn; [done|].
  intros [Hh Hhs]%andb_prop.
  destruct (Aborted c); [done|].
  destruct h as [lvl|lvl|body]; [done| |].
  - by rewrite (IH _ Hhs).
  - rewrite (IH _ Hhs). unfold GetLogger.
    destruct (body_frame body c) as (-> & _ & ->); done.
Qed.

Lemma Logger_unfold (lvl : Level) (rest : list Handler) (c : World) :
  Aborted c = false ->
  Next (HLogger lvl :: rest) c
  = Logger_response (clock c) (Next rest (Logger_request lvl c)).
Proof. intros H. cbn. by rewrite H. Qed.

Lemma tagged_extends (id : string) (lvl : Level) (fs : Fields) (msg : Message)
    (e : option Event) (r : Record_) :
  ("id", VStr id) ∈ fs -> extends lvl fs e -> r ∈ records msg e ->
  rec_level r = lvl /\ tagged id r.
Proof.
  intros Hid He Hr. destruct (extends_records _ _ _ _ _ He Hr) as [Hl [more Hm]].
  split; [done|]. unfold tagged. rewrite Hm. apply elem_of_app. by left.
Qed.

(** ** The records of a request *)

(** C5, as amended. For a request that reaches [Logger lvl] and
    completes, whatever the handlers after it do (abort included), the
    log grows by: the request-start record, written before the rest of
    the chain runs if and only if the request level is at or above [lvl]
    (and zerolog's global level, and is not [Disabled]); what the rest of
    the chain writes; the response record, written after the rest of the
    chain if and only if the response level is at or above the minimum
    level of the logger then stored in the request.  So the middleware
    writes at most two records, and two exactly when both levels pass.
    The request-start record carries the request identifier, and so does
    the response record when the handlers after [Logger] replaced the
    logger through [SetLevel] only. *)
Theorem Logger_writes_request_and_response_when_enabled (lvl : Level)
    (rest : list Handler) (c : World) :
  Aborted c = false ->
  let g := globals c in
  let c1 := Logger_request lvl c in
  let c2 := Next rest c1 in
  let c3 := Next (HLogger lvl :: rest) c in
  exists req down res,
    out c1 = out c ++ req /\
    out c2 = out c1 ++ down /\
    out c3 = out c2 ++ res /\
    length req
    = (if writes (GlobalLevel g) lvl (globalRequestLevel g) then 1 else 0)%nat /\
    length res
    = (if writes (GlobalLevel g) (level (GetLogger c2)) (globalResponseLevel g)
       then 1 else 0)%nat /\
    (forall r, r ∈ req ->
       rec_level r = globalRequestLevel g /\ tagged (requestID c) r) /\
    (forall r, r ∈ res ->
       rec_level r = globalResponseLevel g /\
       (forallb keeps_logger rest = true -> tagged (requestID c) r)).
Proof.
  intros Ha. cbn zeta. rewrite (Logger_unfold _ _ _ Ha).
  destruct (Logger_request_frame lvl c) as (Hg1 & _ & _ & Hst).
  destruct (Logger_request_out lvl c) as (m1 & e1 & Ho1 & Hf1 & Hx1).
  destruct (Next_frame rest (Logger_request lvl c)) as [Hg2 [down Hd]].
  destruct (Logger_response_frame (clock c) (Next rest (Logger_request lvl c)))
    as (m2 & e2 & Hr & Hf2 & Hx2).
  rewrite Hg2, Hg1 in Hf2, Hx2.
  exists (records m1 e1), down, (records m2 e2).
  split; [done|]. split; [done|]. split; [by rewrite Hr|].
  split; [by rewrite length_records, Hf1|].
  split; [by rewrite length_records, Hf2|]. split.
  - intros r Hr1. eapply tagged_extends; [|exact Hx1|exact Hr1].
    apply elem_of_app. right. by apply list_elem_of_singleton.
  - intros r Hr2. split; [by apply (extends_records _ _ _ _ _ Hx2 Hr2)|].
    intros Hk. eapply tagged_extends; [|exact Hx2|exact Hr2].
    rewrite (Next_keeps_context _ _ Hk). unfold GetLogger. rewrite Hst. cbn.
    apply elem_of_app. right. by apply list_elem_of_singleton.
Qed.

(** ** The level override *)

(** C9. When [SetLevel lvl] runs after [Logger lvl0] and the handlers
    [pre], it stores a logger that is the stored one but for the minimum
    level: same context fields, so same request identifier; it writes
    nothing and changes nothing else of the request.  The chain goes on
    with that logger.  The request-start record, and what [pre] wrote,
    were written before and are the first records of the request,
    whatever [lvl] and the later handlers are; whether the request-start
    record is written depends on [lvl0] alone. *)
Theorem SetLevel_replaces_level_only (lvl0 lvl : Level)
    (pre post : list Handler) (c : World) :
  Aborted c = false ->
  forallb not_Logger pre = true ->
  let c1 := Next pre (Logger_request lvl0 c) in
  let c2 := SetLevel lvl c1 in
  let final := Next (HLogger lvl0 :: pre ++ HSetLevel lvl :: post) c in
  (GetLogger c2 = Logger_Level lvl (GetLogger c1) /\
   level (GetLogger c2) = lvl /\
   context (GetLogger c2) = context (GetLogger c1) /\
   c2 = set_stored (Some (GetLogger c2)) c1 /\
   out c2 = out c1) /\
  (Aborted c1 = false ->
   final = Logger_response (clock c) (Next post c2)) /\
  exists req before after,
    out (Logger_request lvl0 c) = out c ++ req /\
    length req
    = (if writes (GlobalLevel (globals c)) lvl0 (globalRequestLevel (globals c))
       then 1 else 0)%nat /\
    out c1 = out c ++ req ++ before /\
    out final = out c1 ++ after.
Proof.
  intros Ha Hpre. cbn zeta.
  rewrite (Logger_unfold _ _ _ Ha), (Next_app _ _ _ Hpre).
  split; [done|]. split.
  - intros Ha1. cbn. by rewrite Ha1.
  - destruct (Logger_request_out lvl0 c) as (m1 & e1 & Ho1 & Hf1 & _).
    destruct (Next_frame pre (Logger_request lvl0 c)) as [_ [before Hb]].
    destruct (Next_frame (HSetLevel lvl :: post) (Next pre (Logger_request lvl0 c)))
      as [_ [d Hd]].
    destruct (Logger_response_frame (clock c)
                (Next (HSetLevel lvl :: post) (Next pre (Logger_request lvl0 c))))
      as (m2 & e2 & Hr & _).
    exists (records m1 e1), before, (d ++ records m2 e2).
    split; [done|]. split; [by rewrite length_records, Hf1|].
    split; [by rewrite Hb, Ho1, app_assoc|].
    rewrite Hr, out_set_out. by rewrite Hd, app_assoc.
Qed.

(** ** The middleware on sample requests *)

(** C5, the claim as stated fails: with minimum level [WarnLevel] and
    the initial request and response levels ([TraceLevel],
    [DebugLevel]), the request completes and the middleware has written
    no record. *)
Lemma Logger_at_WarnLevel_writes_nothing :
  out (Next [HLogger WarnLevel] Sample.world) = [] /\
  Aborted (Next [HLogger WarnLevel] Sample.world) = false /\
  globalRequestLevel (globals Sample.world) = TraceLevel /\
  globalResponseLevel (globals Sample.world) = DebugLevel.
Proof. vm_compute. by repeat split. Qed.

(** C5, amended: the statement at [Logger TraceLevel] followed by a
    handler that aborts with status 404. *)
Lemma Logger_writes_witness :
  let lvl := TraceLevel in
  let rest := [HApp [AAbortWithStatus 404]] in
  let c := Sample.world in
  let g := globals c in
  let c1 := Logger_request lvl c in
  let c2 := Next rest c1 in
  let c3 := Next (HLogger lvl :: rest) c in
  exists req down res,
    out c1 = out c ++ req /\
    out c2 = out c1 ++ down /\
    out c3 = out c2 ++ res /\
    length req
    = (if writes (GlobalLevel g) lvl (globalRequestLevel g) then 1 else 0)%nat /\
    length res
    = (if writes (GlobalLevel g) (level (GetLogger c2)) (globalResponseLevel g)
       then 1 else 0)%nat /\
    (forall r, r ∈ req ->
       rec_level r = globalRequestLevel g /\ tagged (requestID c) r) /\
    (forall r, r ∈ res ->
       rec_level r = globalResponseLevel g /\
       (forallb keeps_logger rest = true -> tagged (requestID c) r)).
Proof.
  exact (Logger_writes_request_and_response_when_enabled TraceLevel
           [HApp [AAbortWithStatus 404]] Sample.world eq_refl).
Defined.

(** C9: the statement at [Logger WarnLevel], [SetLevel DebugLevel] and a
    handler that logs at [DebugLevel], as in
    [TestLogChangeRequestLevel]. *)
Lemma SetLevel_witness :
  let lvl0 := WarnLevel in
  let lvl := DebugLevel in
  let post := [HApp [ALog DebugLevel "TEST"]] in
  let c := Sample.world in
  let c1 := Next [] (Logger_request lvl0 c) in
  let c2 := SetLevel lvl c1 in
  let final := Next (HLogger lvl0 :: [] ++ HSetLevel lvl :: post) c in
  (GetLogger c2 = Logger_Level lvl (GetLogger c1) /\
   level (GetLogger c2) = lvl /\
   context (GetLogger c2) = context (GetLogger c1) /\
   c2 = set_stored (Some (GetLogger c2)) c1 /\
   out c2 = out c1) /\
  (Aborted c1 = false ->
   final = Logger_response (clock c) (Next post c2)) /\
  exists req before after,
    out (Logger_request lvl0 c) = out c ++ req /\
    length req
    = (if writes (GlobalLevel (globals c)) lvl0 (globalRequestLevel (globals c))
       then 1 else 0)%nat /\
    out c1 = out c ++ req ++ before /\
    out final = out c1 ++ after.
Proof.
  exact (SetLevel_replaces_level_only WarnLevel DebugLevel []
           [HApp [ALog DebugLevel "TEST"]] Sample.world eq_refl eq_refl).
Defined.

(** The runs of the tests of the package: both records at
    [TraceLevel]; the override lets the [DebugLevel] records through, and
    the request-start record stays out. *)
Example TestLogRequest_levels :
  rec_level <$> out (Next [HLogger TraceLevel] Sample.world)
  = [TraceLevel; DebugLevel].
Proof. reflexivity. Qed.

Example TestLogChangeRequestLevel_levels :
  (fun r => (rec_level r, format (rec_message r)))
    <$> out (Next [HLogger WarnLevel; HSetLevel DebugLevel;
                   HApp [ALog DebugLevel "TEST"]] Sample.world)
  = [(DebugLevel, "TEST"); (DebugLevel, "RES %s %s %d %s %s")].
Proof. reflexivity. Qed.

End ZlogSpec.

(* ===================================================================== *)
(** * Further properties of package bind *)
(* ===================================================================== *)

Module BindMore.
Import Go Gin Bind.

#[local] Arguments AbortWithStatus : simpl never.
#[local] Arguments AbortWithStatusJSON : simpl never.

Lemma existsb_Permutation {A : Type} (f : A -> bool) (l1 l2 : list A) :
  l1 ≡ₚ l2 -> existsb f l1 = existsb f l2.
Proof.
  induction 1 as [|x l l' _ IH|x y l|l l' l'' _ IH1 _ IH2]; cbn.
  - done.
  - by rewrite IH.
  - by rewrite !orb_assoc, (orb_comm (f y)).
  - by rewrite IH1.
Qed.

(** The entries of [{"code": "validation_error", "errors": errs}]. *)
Lemma validation_body_lookup (vErr : list FieldError) (k : string) :
  validation_body vErr !! k =
    if decide (k = "code") then Some (JString "validation_error")
    else if decide (k = "errors") then Some (JArray (field_entry <$> vErr))
    else None.
Proof.
  unfold validation_body. repeat case_decide; subst.
  - by rewrite lookup_insert_eq.
  - rewrite lookup_insert_ne by done. by rewrite lookup_insert_eq.
  - by rewrite !lookup_insert_ne, lookup_empty.
Qed.

(** The cases of the frame of [bindHandler]: the responses [ws] and the
    errors [es] a branch adds. *)
Ltac frame_with ws es :=
  split; [intros ? ?; rewrite ?lookup_insert_ne by done; done|];
  split; [exists ws, es; cbn; rewrite ?app_nil_r; repeat split; (done || (cbn; lia))|];
  split; [by intros ?|];
  split; [done|]; split; [done|]; split; [done|];
  split; [intros ?; by eauto|];
  intros ?; done.

(** The branches that end in a call of gin's writer. *)
Ltac writer_frame Hb :=
  let Hr := fresh in let Hk := fresh in let He := fresh in
  let Ha := fresh in let ws := fresh "ws" in
  let Hw := fresh in let Hl := fresh in
  match goal with
  | |- context [AbortWithStatusJSON ?a ?b ?c] =>
      destruct (GinSpec.AbortWithStatusJSON_frame a b c)
        as (Hr & Hk & He & Ha & ws & Hw & Hl)
  | |- context [AbortWithStatus ?a ?c] =>
      destruct (GinSpec.AbortWithStatus_frame a c)
        as (Hr & Hk & He & Ha & ws & Hw & Hl)
  end;
  rewrite ?Hr, ?Hk, ?He, ?Ha, ?Hw; cbn; rewrite ?Hb; cbn;
  frame_with ws (@nil error).

Section Decoder.
Context {Any : Type}.
Variable ShouldBind : Request -> Any -> nat * Any * option error.

Implicit Type ctx : Gin.Context Any.

(** Buffering the body changes nothing but the body. *)
Lemma replayed_frame ctx :
  Keys (replayed ctx) = Keys ctx /\
  Aborted (replayed ctx) = Aborted ctx /\
  Errors (replayed ctx) = Errors ctx /\
  Written (replayed ctx) = Written ctx.
Proof. unfold replayed. by destruct (Body (Req ctx)). Qed.

(** Nor does the decoder, which reads from it. *)
Lemma decoded_frame ctx (n : nat) :
  Keys (consumed n (replayed ctx)) = Keys ctx /\
  Aborted (consumed n (replayed ctx)) = Aborted ctx /\
  Errors (consumed n (replayed ctx)) = Errors ctx /\
  Written (consumed n (replayed ctx)) = Written ctx.
Proof. unfold consumed, replayed. by destruct (Body (Req ctx)). Qed.

(** The context a successful decoding leaves: the request as the decoder
    found it, with the target stored. *)
Lemma bindHandler_success ctx (target v : Any) (opts : bindOpts)
    (body : bytes) (n : nat) :
  buffered ctx = Some body ->
  ShouldBind (Req (replayed ctx)) target = (n, v, None) ->
  bindHandler ShouldBind ctx target opts = Set_ (key opts) v (replayed ctx).
Proof.
  intros Hbuf Hdec.
  rewrite (BindSpec.bindHandler_buffered _ _ _ _ _ Hbuf).
  unfold bind_decode. rewrite Hdec.
  unfold buffered in Hbuf. unfold replayed, consumed.
  destruct (Body (Req ctx)) as [rd|] eqn:Hb; cbn.
  - destruct (fault rd); [done|]. by injection Hbuf as <-.
  - rewrite Hb. cbn. f_equal. rewrite <- Hb. apply BindSpec.set_Body_same.
Qed.

(** ** Reading the body fails *)

(** X1. When reading the body ends in an error, the handler returns at
    once: the decoder is not called and the options play no part, nothing
    is stored, the chain is not aborted, no error is recorded and no
    response is written; the body stays drained. *)
Theorem read_failure_is_swallowed ctx (target : Any) (opts : bindOpts)
    (rd : Reader) (e : error) :
  Body (Req ctx) = Some rd ->
  fault rd = Some e ->
  let ctx' := bindHandler ShouldBind ctx target opts in
  Keys ctx' = Keys ctx /\
  Aborted ctx' = Aborted ctx /\
  Errors ctx' = Errors ctx /\
  Written ctx' = Written ctx /\
  body_read ctx' = Some ([], Some e) /\
  forall (decoder : Request -> Any -> nat * Any * option error)
         (target' : Any) (opts' : bindOpts),
    bindHandler decoder ctx target' opts' = ctx'.
Proof.
  intros Hb Hf. cbn zeta. unfold bindHandler, body_read, ReadAll.
  rewrite Hb, Hf. cbn. repeat split; try done.
Qed.

(** ** The abort policy *)

(** X2. With abort on, a decoding error aborts the chain and is attached
    to the context as its last error; no response is written and nothing
    is stored; and the request is left with a body that yields the
    buffer, an empty body when the request had none. *)
Theorem abort_policy_attaches_error ctx (target v : Any) (opts : bindOpts)
    (body : bytes) (n : nat) (err : error) :
  buffered ctx = Some body ->
  ShouldBind (Req (replayed ctx)) target = (n, v, Some err) ->
  abort opts = true ->
  let ctx' := bindHandler ShouldBind ctx target opts in
  Aborted ctx' = true /\
  Errors ctx' = Errors ctx ++ [err] /\
  Written ctx' = Written ctx /\
  Keys ctx' = Keys ctx /\
  body_read ctx' = Some (body, None).
Proof.
  intros Hbuf Hdec Ha. cbn zeta.
  rewrite (BindSpec.bindHandler_buffered _ _ _ _ _ Hbuf).
  rewrite (BindSpec.bind_decode_failure _ _ _ _ _ _ _ _ Hdec).
  unfold policy. rewrite Ha. cbn.
  destruct (replayed_frame ctx) as (-> & _ & -> & ->).
  done.
Qed.

(** ** The respond policy *)

(** X3. With response and detail on and abort off, a decoding error that
    is, or wraps, validation errors ends in [AbortWithStatusJSON] with
    the configured code and this body: its code is "validation_error",
    its "errors" is an array with one object per field error, in order,
    giving the field and the rule; it has no other entry.  On a response
    not written to before, with a code in 100..999 that allows a body,
    that body is all that goes out, with the configured status.  The
    chain is aborted, no error is attached and nothing is stored. *)
Theorem respond_detail_lists_field_errors ctx (target v : Any)
    (opts : bindOpts) (body : bytes) (n : nat) (err : error)
    (fes : list FieldError) :
  buffered ctx = Some body ->
  ShouldBind (Req (replayed ctx)) target = (n, v, Some err) ->
  abort opts = false -> response opts = true -> detail opts = true ->
  errors_As_ValidationErrors err = Some fes ->
  Written ctx = [] ->
  (100 <= code opts <= 999)%Z ->
  bodyAllowedForStatus (code opts) = true ->
  let ctx' := bindHandler ShouldBind ctx target opts in
  Aborted ctx' = true /\ Errors ctx' = Errors ctx /\ Keys ctx' = Keys ctx /\
  exists obj entries,
    ctx' = AbortWithStatusJSON (code opts) obj (consumed n (replayed ctx)) /\
    Written ctx' = [WroteJSON (code opts) obj] /\
    obj !! "code" = Some (JString "validation_error") /\
    obj !! "errors" = Some (JArray entries) /\
    (forall k, k <> "code" -> k <> "errors" -> obj !! k = None) /\
    length entries = length fes /\
    forall i fe, fes !! i = Some fe ->
      exists entry,
        entries !! i = Some (JObject entry) /\
        entry !! "field" = Some (JString (Field fe)) /\
        entry !! "rule" = Some (JString (Tag fe)) /\
        forall k, k <> "field" -> k <> "rule" -> entry !! k = None.
Proof.
  intros Hbuf Hdec Ha Hr Hd Has Hw Hc Hallow. cbn zeta.
  rewrite (BindSpec.bindHandler_buffered _ _ _ _ _ Hbuf).
  rewrite (BindSpec.bind_decode_failure _ _ _ _ _ _ _ _ Hdec).
  unfold policy. rewrite Ha, Hr, Hd, Has.
  destruct (decoded_frame ctx n) as (Hk0 & _ & He0 & Hw0).
  destruct (GinSpec.AbortWithStatusJSON_frame (code opts) (validation_body fes)
              (consumed n (replayed ctx))) as (_ & -> & -> & -> & _).
  do 3 (split; [done|]).
  exists (validation_body fes), (field_entry <$> fes).
  split; [done|]. split.
  { rewrite GinSpec.AbortWithStatusJSON_fresh, Hallow; [done| |lia].
    by rewrite Hw0. }
  rewrite !validation_body_lookup. cbn.
  split; [done|]. split; [done|]. split.
  { intros k ? ?. rewrite validation_body_lookup. by repeat case_decide. }
  split; [by rewrite length_fmap|].
  intros i fe Hi. eexists. rewrite list_lookup_fmap, Hi. cbn.
  split; [reflexivity|]. split; [by rewrite lookup_insert_eq|]. split.
  - rewrite lookup_insert_ne by done. by rewrite lookup_insert_eq.
  - intros k ? ?. by rewrite !lookup_insert_ne, lookup_empty.
Qed.

(** X4. With response on and abort and detail off, every decoding error,
    validation errors included, ends in [AbortWithStatus] with the
    configured code: on a response not written to before, with a code in
    100..999, the configured status goes out and no body.  The chain is
    aborted, no error is attached and nothing is stored. *)
Theorem respond_without_detail_writes_status_only ctx (target v : Any)
    (opts : bindOpts) (body : bytes) (n : nat) (err : error) :
  buffered ctx = Some body ->
  ShouldBind (Req (replayed ctx)) target = (n, v, Some err) ->
  abort opts = false -> response opts = true -> detail opts = false ->
  Written ctx = [] ->
  (100 <= code opts <= 999)%Z ->
  let ctx' := bindHandler ShouldBind ctx target opts in
  ctx' = AbortWithStatus (code opts) (consumed n (replayed ctx)) /\
  Written ctx' = [WroteStatus (code opts)] /\
  Aborted ctx' = true /\ Errors ctx' = Errors ctx /\ Keys ctx' = Keys ctx.
Proof.
  intros Hbuf Hdec Ha Hr Hd Hw Hc. cbn zeta.
  rewrite (BindSpec.bindHandler_buffered _ _ _ _ _ Hbuf).
  rewrite (BindSpec.bind_decode_failure _ _ _ _ _ _ _ _ Hdec).
  unfold policy. rewrite Ha, Hr, Hd.
  destruct (decoded_frame ctx n) as (Hk0 & _ & He0 & Hw0).
  assert (Heq : match errors_As_ValidationErrors err with
                | Some _ | None => AbortWithStatus (code opts) (consumed n (replayed ctx))
                end = AbortWithStatus (code opts) (consumed n (replayed ctx)))
    by (by destruct (errors_As_ValidationErrors err)).
  rewrite Heq.
  destruct (GinSpec.AbortWithStatus_frame (code opts) (consumed n (replayed ctx)))
    as (_ & -> & -> & -> & _).
  split; [done|]. split; [|done].
  apply GinSpec.AbortWithStatus_fresh; [by rewrite Hw0|lia].
Qed.

(** ** The silent policy *)

(** X5. With abort and response off, a decoding error on any request,
    with a body or without, leaves the keys, the abort flag, the errors
    and the responses as they were. *)
Theorem silent_policy_hides_failure ctx (target v : Any) (opts : bindOpts)
    (body : bytes) (n : nat) (err : error) :
  buffered ctx = Some body ->
  ShouldBind (Req (replayed ctx)) target = (n, v, Some err) ->
  abort opts = false -> response opts = false ->
  let ctx' := bindHandler ShouldBind ctx target opts in
  Keys ctx' = Keys ctx /\ Aborted ctx' = Aborted ctx /\
  Errors ctx' = Errors ctx /\ Written ctx' = Written ctx.
Proof.
  intros Hbuf Hdec Ha Hr. cbn zeta.
  rewrite (BindSpec.bindHandler_buffered _ _ _ _ _ Hbuf).
  rewrite (BindSpec.bind_decode_failure _ _ _ _ _ _ _ _ Hdec).
  unfold policy. rewrite Ha, Hr. cbn. apply replayed_frame.
Qed.

(** ** What the handler never does *)

(** X6. On every request and for every decoder and options, the handler
    touches no key but the configured one, keeps the responses and errors
    it found and adds at most one response or one error, never both,
    never lifts an abort, leaves the method, content type and query of
    the request alone and never removes its body; and when it stores a
    target it neither aborts nor responds nor records an error. *)
Theorem bindHandler_frame ctx (target : Any) (opts : bindOpts) :
  let ctx' := bindHandler ShouldBind ctx target opts in
  (forall k, k <> key opts -> Get k ctx' = Get k ctx) /\
  (exists ws es,
     Written ctx' = Written ctx ++ ws /\ Errors ctx' = Errors ctx ++ es /\
     (length ws + length es <= 1)%nat) /\
  (Aborted ctx = true -> Aborted ctx' = true) /\
  Method (Req ctx') = Method (Req ctx) /\
  ContentType (Req ctx') = ContentType (Req ctx) /\
  RawQuery (Req ctx') = RawQuery (Req ctx) /\
  (is_Some (Body (Req ctx)) -> is_Some (Body (Req ctx'))) /\
  (Keys ctx' <> Keys ctx ->
     Aborted ctx' = Aborted ctx /\ Written ctx' = Written ctx /\
     Errors ctx' = Errors ctx).
Proof.
  cbn zeta. unfold bindHandler, bind_decode, consumed, ReadAll, Get.
  destruct (Body (Req ctx)) as [rd|] eqn:Hb; cbn.
  - destruct (fault rd); cbn.
    { frame_with (@nil Response) (@nil error). }
    destruct (ShouldBind _ target) as [[n v] [err|]]; cbn.
    + destruct (abort opts); cbn; [frame_with (@nil Response) [err]|].
      destruct (response opts); cbn; [|frame_with (@nil Response) (@nil error)].
      destruct (errors_As_ValidationErrors err) as [vErr|];
        [destruct (detail opts)|]; writer_frame Hb.
    + frame_with (@nil Response) (@nil error).
  - destruct (ShouldBind _ target) as [[n v] [err|]]; cbn; rewrite ?Hb; cbn.
    + destruct (abort opts); cbn; [frame_with (@nil Response) [err]|].
      destruct (response opts); cbn; [|frame_with (@nil Response) (@nil error)].
      destruct (errors_As_ValidationErrors err) as [vErr|];
        [destruct (detail opts)|]; writer_frame Hb.
    + frame_with (@nil Response) (@nil error).
Qed.

(** ** Two handlers on one request *)

(** X7. Two handlers built by [As] from the same factory can follow each
    other on a request: when the first decodes the request, the second
    finds the same bytes and decodes them too, each stores the decoded
    target under its own key, and the next handler still reads the
    original body; nothing is aborted, written or recorded. *)
Theorem As_twice_binds_twice (d : Defaults) (pv : unit -> Any)
    (opts1 opts2 : list BindOpts) ctx (body : bytes) (n : nat) (v : Any) :
  buffered ctx = Some body ->
  ShouldBind (Req (replayed ctx)) (pv tt) = (n, v, None) ->
  let ctx' := As ShouldBind d pv opts2 (As ShouldBind d pv opts1 ctx) in
  Get (key (getBindOpts d opts2)) ctx' = Some v /\
  (key (getBindOpts d opts1) <> key (getBindOpts d opts2) ->
   Get (key (getBindOpts d opts1)) ctx' = Some v) /\
  body_read ctx' = body_read ctx /\
  Aborted ctx' = Aborted ctx /\ Errors ctx' = Errors ctx /\
  Written ctx' = Written ctx.
Proof.
  intros Hbuf Hdec. cbn zeta. unfold As.
  rewrite (bindHandler_success _ _ _ _ _ _ Hbuf Hdec).
  set (ctx1 := Set_ (key (getBindOpts d opts1)) v (replayed ctx)).
  assert (Hbuf1 : buffered ctx1 = Some body).
  { unfold buffered in *. unfold ctx1, replayed.
    destruct (Body (Req ctx)) as [rd|] eqn:Hb; cbn; rewrite ?Hb; [|done].
    by destruct (fault rd). }
  assert (Hreq : Req (replayed ctx1) = Req (replayed ctx)).
  { unfold ctx1, replayed.
    destruct (Body (Req ctx)) as [rd|] eqn:Hb; cbn; by rewrite ?Hb. }
  assert (Hdec1 : ShouldBind (Req (replayed ctx1)) (pv tt) = (n, v, None))
    by (by rewrite Hreq).
  rewrite (bindHandler_success _ _ _ _ _ _ Hbuf1 Hdec1).
  unfold Get, body_read. cbn. rewrite Hreq.
  assert (Hk : Keys (replayed ctx1) = <[key (getBindOpts d opts1) := v]> (Keys ctx)).
  { unfold ctx1, replayed.
    destruct (Body (Req ctx)) eqn:Hb; cbn; by rewrite ?Hb. }
  assert (Hrest : Aborted (replayed ctx1) = Aborted ctx /\
                  Errors (replayed ctx1) = Errors ctx /\
                  Written (replayed ctx1) = Written ctx).
  { unfold ctx1, replayed.
    destruct (Body (Req ctx)) eqn:Hb; cbn; by rewrite ?Hb. }
  destruct Hrest as (-> & -> & ->). rewrite Hk.
  split; [apply lookup_insert_eq|]. split.
  { intros Hne. rewrite lookup_insert_ne by done. apply lookup_insert_eq. }
  split; [|done].
  unfold buffered in Hbuf. unfold replayed.
  destruct (Body (Req ctx)) as [rd|] eqn:Hb; cbn; rewrite ?Hb; [|done].
  destruct (fault rd); [done|]. done.
Qed.

End Decoder.

(** ** The order of the options *)

(** X8. Two lists of exported mutators that are permutations of each
    other switch the same flags on, and so select the same failure
    policy: the order of the options matters for the key and the status
    code only. *)
Theorem policy_ignores_option_order (d : Defaults) (l1 l2 : list Option_) :
  l1 ≡ₚ l2 ->
  let bo1 := getBindOpts d (mutator <$> l1) in
  let bo2 := getBindOpts d (mutator <$> l2) in
  abort bo1 = abort bo2 /\ response bo1 = response bo2 /\
  detail bo1 = detail bo2 /\ policy bo1 = policy bo2.
Proof.
  intros Hp. cbn zeta.
  destruct (BindSpec.getBindOpts_fields d l1) as (_ & _ & Ha1 & Hr1 & Hd1).
  destruct (BindSpec.getBindOpts_fields d l2) as (_ & _ & Ha2 & Hr2 & Hd2).
  unfold policy. rewrite Ha1, Ha2, Hr1, Hr2, Hd1, Hd2.
  by rewrite !(existsb_Permutation _ _ _ Hp).
Qed.

(** ** The statements on sample requests *)

(** X1 on a request whose body breaks off while it is read. *)
Lemma read_failure_witness :
  let ctx := Sample.ctx_broken in
  let opts := getBindOpts initial_defaults [WithResponseDetail] in
  let target := Sample.New (Sample.TypeOf Sample.TestingBody) in
  let ctx' := bindHandler Sample.ShouldBind ctx target opts in
  Keys ctx' = Keys ctx /\
  Aborted ctx' = Aborted ctx /\
  Errors ctx' = Errors ctx /\
  Written ctx' = Written ctx /\
  body_read ctx' = Some ([], Some (ErrorString 4 "connection reset by peer")) /\
  forall (decoder : Request -> Sample.value -> nat * Sample.value * option error)
         (target' : Sample.value) (opts' : bindOpts),
    bindHandler decoder ctx target' opts' = ctx'.
Proof.
  exact (read_failure_is_swallowed Sample.ShouldBind Sample.ctx_broken
           (Sample.New (Sample.TypeOf Sample.TestingBody))
           (getBindOpts initial_defaults [WithResponseDetail])
           Sample.broken (ErrorString 4 "connection reset by peer")
           eq_refl eq_refl).
Defined.

(** X2 on the request without a body, with [WithAbort], as in
    [TestBindAbort]. *)
Lemma abort_policy_witness :
  let ctx := Sample.ctx_empty in
  let ctx' := bindHandler Sample.ShouldBind ctx
                (Sample.New (Sample.TypeOf Sample.TestingBody))
                (getBindOpts initial_defaults [WithAbort]) in
  Aborted ctx' = true /\
  Errors ctx' = Errors ctx ++ [ErrorString 2 "invalid request"] /\
  Written ctx' = Written ctx /\
  Keys ctx' = Keys ctx /\
  body_read ctx' = Some ([], None).
Proof.
  exact (abort_policy_attaches_error Sample.ShouldBind Sample.ctx_empty
           (Sample.New (Sample.TypeOf Sample.TestingBody))
           (Sample.New (Sample.TypeOf Sample.TestingBody))
           (getBindOpts initial_defaults [WithAbort]) [] 0%nat
           (ErrorString 2 "invalid request") eq_refl eq_refl eq_refl).
Defined.

(** X3 on the empty object, with the decoder that requires the field
    [Test] and [WithResponseDetail]. *)
Lemma respond_detail_witness :
  let ctx := Sample.ctx_unfilled in
  let opts := getBindOpts initial_defaults [WithResponseDetail] in
  let fes := [{| Field := "Test"; Tag := "required" |}] in
  let ctx' := bindHandler Sample.ShouldBindRequired ctx
                (Sample.New (Sample.TypeOf Sample.TestingBody)) opts in
  Aborted ctx' = true /\ Errors ctx' = Errors ctx /\ Keys ctx' = Keys ctx /\
  exists obj entries,
    ctx' = AbortWithStatusJSON (code opts) obj (consumed 2 (replayed ctx)) /\
    Written ctx' = [WroteJSON (code opts) obj] /\
    obj !! "code" = Some (JString "validation_error") /\
    obj !! "errors" = Some (JArray entries) /\
    (forall k, k <> "code" -> k <> "errors" -> obj !! k = None) /\
    length entries = length fes /\
    forall i fe, fes !! i = Some fe ->
      exists entry,
        entries !! i = Some (JObject entry) /\
        entry !! "field" = Some (JString (Field fe)) /\
        entry !! "rule" = Some (JString (Tag fe)) /\
        forall k, k <> "field" -> k <> "rule" -> entry !! k = None.
Proof.
  exact (respond_detail_lists_field_errors Sample.ShouldBindRequired
           Sample.ctx_unfilled
           (Sample.New (Sample.TypeOf Sample.TestingBody))
           (Sample.VPtr (Sample.VStruct "TestingBody" Sample.unfilled))
           (getBindOpts initial_defaults [WithResponseDetail])
           Sample.unfilled 2%nat
           (ValidationErrors [{| Field := "Test"; Tag := "required" |}])
           [{| Field := "Test"; Tag := "required" |}]
           eq_refl eq_refl eq_refl eq_refl eq_refl eq_refl eq_refl
           ltac:(cbn; lia) eq_refl).
Defined.

(** X4 on the empty object, with the same decoder and
    [WithResponseCode 403]. *)
Lemma respond_without_detail_witness :
  let ctx := Sample.ctx_unfilled in
  let opts := getBindOpts initial_defaults [WithResponseCode 403] in
  let ctx' := bindHandler Sample.ShouldBindRequired ctx
                (Sample.New (Sample.TypeOf Sample.TestingBody)) opts in
  ctx' = AbortWithStatus (code opts) (consumed 2 (replayed ctx)) /\
  Written ctx' = [WroteStatus (code opts)] /\
  Aborted ctx' = true /\ Errors ctx' = Errors ctx /\ Keys ctx' = Keys ctx.
Proof.
  exact (respond_without_detail_writes_status_only Sample.ShouldBindRequired
           Sample.ctx_unfilled
           (Sample.New (Sample.TypeOf Sample.TestingBody))
           (Sample.VPtr (Sample.VStruct "TestingBody" Sample.unfilled))
           (getBindOpts initial_defaults [WithResponseCode 403])
           Sample.unfilled 2%nat
           (ValidationErrors [{| Field := "Test"; Tag := "required" |}])
           eq_refl eq_refl eq_refl eq_refl eq_refl eq_refl ltac:(cbn; lia)).
Defined.

(** X5 on the malformed document, with no option. *)
Lemma silent_policy_witness :
  let ctx := Sample.ctx_malformed in
  let ctx' := bindHandler Sample.ShouldBind ctx
                (Sample.New (Sample.TypeOf Sample.TestingBody))
                (getBindOpts initial_defaults []) in
  Keys ctx' = Keys ctx /\ Aborted ctx' = Aborted ctx /\
  Errors ctx' = Errors ctx /\ Written ctx' = Written ctx.
Proof.
  exact (silent_policy_hides_failure Sample.ShouldBind Sample.ctx_malformed
           (Sample.New (Sample.TypeOf Sample.TestingBody))
           (Sample.New (Sample.TypeOf Sample.TestingBody))
           (getBindOpts initial_defaults []) Sample.malformed
           (length Sample.malformed) (ErrorString 3 "unexpected EOF")
           eq_refl eq_refl eq_refl eq_refl).
Defined.

(** X7 on the well-formed document, bound under "body" and under
    "body2", as in [TestBindBodyToMultiple]. *)
Lemma As_twice_witness :
  let d := initial_defaults in
  let pv := fun _ : unit => Sample.New (Sample.TypeOf Sample.TestingBody) in
  let v := Sample.VPtr (Sample.VStruct "TestingBody" Sample.wellformed) in
  let ctx := Sample.ctx_wellformed in
  let ctx' := As Sample.ShouldBind d pv [WithKey "body2"]
                (As Sample.ShouldBind d pv [] ctx) in
  Get (key (getBindOpts d [WithKey "body2"])) ctx' = Some v /\
  (key (getBindOpts d []) <> key (getBindOpts d [WithKey "body2"]) ->
   Get (key (getBindOpts d [])) ctx' = Some v) /\
  body_read ctx' = body_read ctx /\
  Aborted ctx' = Aborted ctx /\ Errors ctx' = Errors ctx /\
  Written ctx' = Written ctx.
Proof.
  exact (As_twice_binds_twice Sample.ShouldBind initial_defaults
           (fun _ : unit => Sample.New (Sample.TypeOf Sample.TestingBody))
           [] [WithKey "body2"] Sample.ctx_wellformed Sample.wellformed
           (length Sample.wellformed)
           (Sample.VPtr (Sample.VStruct "TestingBody" Sample.wellformed))
           eq_refl eq_refl).
Defined.

(** X8 at the two orders of [WithAbort] and [WithResponse]. *)
Lemma policy_order_witness :
  let bo1 := getBindOpts initial_defaults (mutator <$> [OAbort; OResponse]) in
  let bo2 := getBindOpts initial_defaults (mutator <$> [OResponse; OAbort]) in
  abort bo1 = abort bo2 /\ response bo1 = response bo2 /\
  detail bo1 = detail bo2 /\ policy bo1 = policy bo2.
Proof.
  exact (policy_ignores_option_order initial_defaults
           [OAbort; OResponse] [OResponse; OAbort]
           (perm_swap OResponse OAbort [])).
Defined.

End BindMore.

(* ===================================================================== *)
(** * Further properties of package errors *)
(* ===================================================================== *)

Module ErrorsMore.
Import Go Gin Errors.

(** Wrapping keeps the sentinel recognisable. *)
Lemma errors_Is_wrapped_sentinel (layers : list (positive * string)) :
  errors_Is (wrapped layers ErrNoDetail) ErrNoDetail = true.
Proof.
  induction layers as [|[addr text] layers IH]; cbn; [done|].
  by rewrite IH.
Qed.

Section Helper.
Context {Any : Type}.
Variable IsThisError : error -> json.

(** X9. The response is the code alone, with no "error" entry, in each of
    these cases: the detail flag was switched off with
    [SetErrorDetailOutput(false)], whatever the error; the error is the
    sentinel [ErrNoDetail] wrapped any number of times, whatever the
    detail flag; the call is [AbortWith].  What makes an error the
    sentinel is its identity, not its text: with detail on, a plain error
    of another identity has its description in the response, even with
    the text of the sentinel. *)
Theorem detail_is_withheld (detail : bool) (ctx : Context Any) (status : Z)
    (code : string) :
  let bare := (AbortWithStatusJSON status (<["code" := JString code]> ∅) ctx, true) in
  (forall err,
     AbortWithError IsThisError (SetErrorDetailOutput false detail) ctx
       (Some err) status code = bare) /\
  (forall layers,
     AbortWithError IsThisError detail ctx
       (Some (wrapped layers ErrNoDetail)) status code = bare) /\
  AbortWith IsThisError detail ctx status code = bare /\
  (forall addr text,
     addr <> 1%positive ->
     AbortWithError IsThisError true ctx (Some (ErrorString addr text)) status code
     = (AbortWithStatusJSON status
          (<["error" := IsThisError (ErrorString addr text)]>
             (<["code" := JString code]> ∅)) ctx, true)).
Proof.
  cbn zeta. split; [done|]. split.
  { intros layers. unfold AbortWithError.
    by rewrite errors_Is_wrapped_sentinel, andb_false_r. }
  split.
  { unfold AbortWith, AbortWithError. cbn. by rewrite andb_false_r. }
  intros addr text Hne. unfold AbortWithError. cbn.
  by rewrite bool_decide_eq_false_2.
Qed.


End Helper.


End ErrorsMore.

(* ===================================================================== *)
(** * Further properties of package zlog *)
(* ===================================================================== *)

Module ZlogMore.
Import Go Zlog.

#[local] Arguments Logger_request : simpl never.
#[local] Arguments Logger_response : simpl never.
#[local] Arguments Header : simpl never.
#[local] Arguments sextet : simpl never.

(** ** Request identifiers *)

Lemma sextet_url_safe (n : N) : url_safe (sextet n) = true.
Proof.
  unfold sextet. change 63%N with (N.ones 6). rewrite N.land_ones.
  assert (H : (N.to_nat (n mod 2 ^ 6) < 64)%nat).
  { pose proof (N.mod_upper_bound n (2 ^ 6)%N). change (2 ^ 6)%N with 64%N in *. lia. }
  revert H. generalize (N.to_nat (n mod 2 ^ 6)). intros m Hm.
  do 64 (destruct m as [|m]; [reflexivity|]). lia.
Qed.

(** The buffer [Logger] encodes always has eight bytes. *)
Lemma requestIDBytes_length (c : World) : length (ReadFull 8 c).1 = 8%nat.
Proof. cbn -[take replicate]. rewrite length_take, length_app, length_replicate. lia. Qed.

Lemma eight_bytes (l : bytes) :
  length l = 8%nat -> exists a b c d e f g h, l = [a; b; c; d; e; f; g; h].
Proof.
  intros H. do 8 (destruct l as [|? l]; [done|]). destruct l; [|done].
  by eexists _, _, _, _, _, _, _, _.
Qed.

Lemma requestID_length (c : World) : String.length (requestID c) = 11%nat.
Proof.
  unfold requestID.
  destruct (eight_bytes _ (requestIDBytes_length c))
    as (a & b & c' & d & e & f & g & h & ->).
  reflexivity.
Qed.


(** X11. Whatever [crypto/rand] yields, the request identifier has
    eleven characters, all letters, digits, [-] or [_]; it is the
    encoding of the first eight bytes of the stream when the stream has
    that many, and [Logger] takes those eight bytes off the stream. *)
Theorem requestID_shape (lvl : Level) (c : World) :
  String.length (requestID c) = 11%nat /\
  string_forall url_safe (requestID c) = true /\
  ((8 <= length (rand c))%nat -> requestID c = RawURLEncoding (take 8 (rand c))) /\
  rand (Logger_request lvl c) = drop 8 (rand c).
Proof.
  split; [apply requestID_length|]. split; [|split].
  - unfold requestID.
    destruct (eight_bytes _ (requestIDBytes_length c))
      as (a & b & c' & d & e & f & g & h & ->).
    cbn. by rewrite !sextet_url_safe.
  - intros H. unfold requestID, ReadFull. cbn -[take replicate].
    by rewrite take_app_le.
  - unfold Logger_request, ReadFull. cbn -[Header take drop replicate RawURLEncoding].
    match goal with
    | |- context [Header ?k ?v ?c'] =>
        destruct (ZlogSpec.Header_frame k v c') as [hd ->]
    end.
    by rewrite ZlogSpec.Msg_frame.
Qed.

(** ** The response header *)







(** ** The order of [SetLevel] and [Logger] *)

Lemma Logger_request_forgets_stored (lvl : Level) (x : option ZLogger) (c : World) :
  Logger_request lvl (set_stored x c) = Logger_request lvl c.
Proof.
  unfold Logger_request, ReadFull, Header.
  cbn -[take drop replicate RawURLEncoding]. by case_decide.
Qed.

(** X13. [Logger] builds its logger from [log.Logger], not from the
    logger stored in the request: a [SetLevel] placed before [Logger]
    changes nothing of what the chain does. *)
Theorem SetLevel_before_Logger_is_overridden (lvl lvl0 : Level)
    (rest : list Handler) (c : World) :
  Aborted c = false ->
  Next (HSetLevel lvl :: HLogger lvl0 :: rest) c = Next (HLogger lvl0 :: rest) c.
Proof.
  intros Ha. cbn. rewrite Ha. cbn. unfold Logger, SetLevel, setLogger.
  by rewrite Logger_request_forgets_stored.
Qed.

(** ** Records of the handlers *)

(** X14. A record a handler sends through [GetLogger(ctx)] at level [x]
    is written exactly when [x] is at or above the minimum level of the
    logger in force (and zerolog's global level, and is not [Disabled]),
    with the fields of that logger.  After [SetLevel lvl] the minimum
    level is [lvl] and the fields are those of the logger in force
    before. *)
Theorem handler_records_follow_the_level (lvl x : Level) (msg : string)
    (c : World) :
  let g := GlobalLevel (globals c) in
  let rec_ := {| rec_level := x; rec_fields := context (GetLogger c);
                 rec_message := Sprintf msg [] |} in
  out (act (ALog x msg) c)
  = out c ++ (if writes g (level (GetLogger c)) x then [rec_] else []) /\
  out (act (ALog x msg) (SetLevel lvl c))
  = out c ++ (if writes g lvl x then [rec_] else []).
Proof.
  cbn zeta. cbn. rewrite !ZlogSpec.Msg_out, !ZlogSpec.WithLevel_writes. cbn.
  split.
  - by destruct (writes _ _ x).
  - by destruct (writes _ lvl x).
Qed.

(** ** Two [Logger] handlers *)


(** ** Loggers in other contexts *)

(** X16. On a context that is not the one of a request, [GetLogger]
    returns the logger attached last by [WithLogger], whatever was
    attached before and whatever other values are attached after; a nil
    logger attached with [WithLogger] comes back as nil; and when no
    logger is attached, as on the background context, it returns
    [log.Logger].  It does not panic on a context on which only
    [WithLogger] used the key of the package. *)
Theorem GetLogger_returns_the_last_logger (g : Globals)
    (parent : context_Context) (logger : option ZLogger)
    (others : list (string * string)) :
  let attach := fun ctx => foldr (fun kv ctx => WithValue ctx (otherKey kv.1) (AOther kv.2))
                                 ctx others in
  GetLogger_of g (attach (WithLogger parent logger)) = Returns logger /\
  GetLogger_of g (attach Background) = Returns (Some (log_Logger g)) /\
  GetLogger_of g (attach parent) = GetLogger_of g parent.
Proof.
  cbv beta zeta.
  assert (H : forall ctx,
    GetLogger_of g (foldr (fun kv ctx => WithValue ctx (otherKey kv.1) (AOther kv.2))
                      ctx others) = GetLogger_of g ctx).
  { intros ctx. induction others as [|[k v] others IH]; [done|].
    rewrite <- IH. unfold GetLogger_of. cbn. by rewrite decide_False. }
  rewrite !H. by repeat split.
Qed.

(** ** Switching the records off *)

(** X17. With the request level and the response level set to [Disabled]
    by [SetGlobalRequestLevel] and [SetGlobalResponseLevel], [Logger]
    writes no record of its own, whatever its minimum level: the log of
    the request is what the handlers after it write. *)
Theorem Disabled_levels_silence_Logger (lvl : Level) (rest : list Handler)
    (c : World) :
  Aborted c = false ->
  let c0 := set_globals
              (SetGlobalRequestLevel Disabled
                 (SetGlobalResponseLevel Disabled (globals c))) c in
  out (Logger_request lvl c0) = out c /\
  out (Next (HLogger lvl :: rest) c0) = out (Next rest (Logger_request lvl c0)).
Proof.
  intros Ha. cbn zeta.
  set (c0 := set_globals _ c).
  assert (Ha0 : Aborted c0 = false) by done.
  assert (Hnone : forall m e, fires e = false -> records m e = [])
    by (by intros m [e|]).
  split.
  - destruct (ZlogSpec.Logger_request_out lvl c0) as (m & e & -> & Hf & _).
    cbn in Hf. unfold writes in Hf. cbn in Hf.
    by rewrite (Hnone _ _ Hf), app_nil_r.
  - rewrite (ZlogSpec.Logger_unfold _ _ _ Ha0).
    destruct (ZlogSpec.Logger_response_frame (clock c0) (Next rest (Logger_request lvl c0)))
      as (m & e & -> & Hf & _).
    destruct (ZlogSpec.Next_frame rest (Logger_request lvl c0)) as [Hg _].
    destruct (ZlogSpec.Logger_request_frame lvl c0) as (Hg0 & _).
    rewrite Hg, Hg0 in Hf. cbn in Hf. unfold writes in Hf. cbn in Hf.
    cbn. by rewrite (Hnone _ _ Hf), app_nil_r.
Qed.

(** ** The statements on the sample request *)


(** On that chain the answer of the handler brings its Content-Type, next
    to the identifier. *)
Example String_sets_Content_Type :
  RespHeader (Next [HLogger WarnLevel; HSetLevel DebugLevel;
                    HApp [ALog DebugLevel "TEST"; AString 200 "done"]]
                Sample.world) !! "Content-Type"
  = Some plainContentType.
Proof. by vm_compute. Qed.

(** X13 at [SetLevel TraceLevel] before [Logger WarnLevel]. *)
Lemma SetLevel_before_Logger_witness :
  Next (HSetLevel TraceLevel :: HLogger WarnLevel :: [HApp [ALog InfoLevel "TEST"]])
    Sample.world
  = Next (HLogger WarnLevel :: [HApp [ALog InfoLevel "TEST"]]) Sample.world.
Proof.
  exact (SetLevel_before_Logger_is_overridden TraceLevel WarnLevel
           [HApp [ALog InfoLevel "TEST"]] Sample.world eq_refl).
Defined.


(** X17 at [Logger TraceLevel] and a handler that logs a warning. *)
Lemma Disabled_levels_witness :
  let rest := [HApp [ALog WarnLevel "TEST"]] in
  let c0 := set_globals
              (SetGlobalRequestLevel Disabled
                 (SetGlobalResponseLevel Disabled (globals Sample.world)))
              Sample.world in
  out (Logger_request TraceLevel c0) = out Sample.world /\
  out (Next (HLogger TraceLevel :: rest) c0)
  = out (Next rest (Logger_request TraceLevel c0)).
Proof.
  exact (Disabled_levels_silence_Logger TraceLevel
           [HApp [ALog WarnLevel "TEST"]] Sample.world eq_refl).
Defined.

(** The identifiers of the two loggers of [inner_Logger_witness] differ:
    the second is drawn from the next eight bytes. *)
Example inner_identifier_differs :
  requestID Sample.world = "MTIzNDU2Nzg" /\
  requestID (Logger_request InfoLevel Sample.world) = "YWJjZGVmZ2g".
Proof. by vm_compute. Qed.

End ZlogMore.
